(** * graphics_fbdev: the framebuffer backend of the recovery UI

    A shallow embedding of [drivers/video/android/graphics_fbdev.c] and the
    properties of its four backend operations (init, flip, blank, exit).

    The C file keeps its state in file-level statics and talks to the
    framebuffer driver through [fb_ioctl], to the allocator through
    [kmalloc]/[kfree] and to the log through [printk].  The embedding threads
    one record, [kernel], through a state-and-fault monad: the statics of the
    file, the registered framebuffer devices with their video memory, the
    kmalloc heap and the kernel log.  Memory is block based: a pointer is a
    block and a byte offset.  Behind a kmalloc block lies the unused rest of
    the allocator's size class, which a read can reach; any other access
    outside a block is a fault. *)

From Stdlib Require Import ZArith Lia.
From Stdlib.Strings Require Import Byte.
From stdpp Require Import base list strings.

Local Open Scope Z_scope.

(** ** Machine arithmetic

    [__u32] and [unsigned int] are 32 bits wide; products and sums wrap. *)

Definition u32 (z : Z) : Z := z mod 2 ^ 32.
Definition umul (a b : Z) : Z := u32 (a * b).
Definition uadd (a b : Z) : Z := u32 (a + b).
Definition usub (a b : Z) : Z := u32 (a - b).

Definition in_u32 (z : Z) : Prop := 0 <= z < 2 ^ 32.

(** ** Pointers and surfaces *)

(** A byte pointer is NULL or an offset into a block: the video memory of
    registered framebuffer [fb], or kmalloc block [b]. *)
Inductive base : Type :=
| Vram (fb : nat)
| Kmem (b : nat).

Inductive ptr : Type :=
| NULL
| Ptr (b : base) (off : Z).

Definition ptr_add (p : ptr) (n : Z) : ptr :=
  match p with
  | NULL => NULL
  | Ptr b off => Ptr b (off + n)
  end.

(** Modelled from the spec: the layout of [GRSurface], declared in minui.h,
    which is not among the sources.  The spec gives the geometry fields as
    unsigned counts; they are 32-bit unsigned values here. *)
Record GRSurface : Type := mkSurface {
  width : Z;
  height : Z;
  row_bytes : Z;
  pixel_bytes : Z;
  data : ptr
}.

Definition set_data (p : ptr) (s : GRSurface) : GRSurface :=
  mkSurface (width s) (height s) (row_bytes s) (pixel_bytes s) p.

Definition same_geometry (a b : GRSurface) : Prop :=
  width a = width b /\ height a = height b /\
  row_bytes a = row_bytes b /\ pixel_bytes a = pixel_bytes b.

(** A [GRSurface*]: NULL, [gr_framebuffer + i], or a kmalloc'ed descriptor. *)
Inductive surf_ptr : Type :=
| SNULL
| Static (i : Z)
| Heap (b : nat).

(** ** The framebuffer device (linux/fb.h) *)

Record fb_bitfield : Type := mkBitfield {
  bf_offset : Z;
  bf_length : Z
}.

Record fb_var_screeninfo : Type := mkVar {
  xres : Z;
  yres : Z;
  yres_virtual : Z;
  yoffset : Z;
  bits_per_pixel : Z;
  red : fb_bitfield;
  green : fb_bitfield;
  blue : fb_bitfield
}.

Record fb_fix_screeninfo : Type := mkFix {
  smem_len : Z;
  line_length : Z
}.

Inductive blank_mode : Type :=
| FB_BLANK_UNBLANK
| FB_BLANK_POWERDOWN.

(** The requests the file sends to the driver: two queries, the commit of
    the screen information and the power request. *)
Inductive ioctl_request : Type :=
| FBIOGET_FSCREENINFO
| FBIOGET_VSCREENINFO
| FBIOPUT_VSCREENINFO (v : fb_var_screeninfo)
| FBIOBLANK (m : blank_mode).

Definition is_query (rq : ioctl_request) : bool :=
  match rq with
  | FBIOGET_FSCREENINFO | FBIOGET_VSCREENINFO => true
  | FBIOPUT_VSCREENINFO _ | FBIOBLANK _ => false
  end.

(** Modelled from the spec: the driver behind [fb->fbops->fb_ioctl] and the
    memory at [fb->fix.mmio_start], neither of which is among the sources.
    The device answers the two queries with its fixed and variable screen
    information, owns a contiguous byte region [vram], keeps the last
    committed screen information and power state, and may refuse a commit or
    a power request with a negative return code.  The spec gives the queries
    no failure (and the file drops their return code): they return 0.
    [replies] are the return codes the device will give to the coming
    commits and power requests (0 when the list is used up); [issued]
    records every request it received, the queries too, in order. *)
Record fb_info : Type := mkFb {
  fix_info : fb_fix_screeninfo;
  var : fb_var_screeninfo;
  vram : list byte;
  power : blank_mode;
  issued : list ioctl_request;
  replies : list Z
}.

Definition next_reply (fb : fb_info) : Z :=
  match replies fb with
  | [] => 0
  | r :: _ => r
  end.

Definition apply_request (rq : ioctl_request) (fb : fb_info) : fb_info :=
  match rq with
  | FBIOGET_FSCREENINFO | FBIOGET_VSCREENINFO => fb
  | FBIOPUT_VSCREENINFO v =>
      mkFb (fix_info fb) v (vram fb) (power fb) (issued fb) (replies fb)
  | FBIOBLANK m =>
      mkFb (fix_info fb) (var fb) (vram fb) m (issued fb) (replies fb)
  end.

(** A query leaves the device as it is, but for the record of requests. *)
Definition fb_query (rq : ioctl_request) (fb : fb_info) : fb_info :=
  mkFb (fix_info fb) (var fb) (vram fb) (power fb) (issued fb ++ [rq])
       (replies fb).

(** One request: the return code, and the device afterwards. *)
Definition fb_request (rq : ioctl_request) (fb : fb_info) : Z * fb_info :=
  if is_query rq then (0, fb_query rq fb) else
  let r := next_reply fb in
  let fb1 := if r <? 0 then fb else apply_request rq fb in
  (r, mkFb (fix_info fb1) (var fb1) (vram fb1) (power fb1)
           (issued fb1 ++ [rq]) (tail (replies fb1))).

Definition set_vram (bs : list byte) (fb : fb_info) : fb_info :=
  mkFb (fix_info fb) (var fb) bs (power fb) (issued fb) (replies fb).

(** ** The kmalloc heap and the log *)

(** A live block holds a surface descriptor (not yet written after
    [kmalloc]: [None]) or bytes. *)
Inductive cell : Type :=
| Descriptor (s : option GRSurface)
| Buffer (bs : list byte).

(** What the allocator will answer to the coming [kmalloc] calls: no memory,
    or a block whose bytes are whatever was there ([junk i] at offset [i]).
    When the list is used up the allocator has no memory left. *)
Inductive alloc_reply : Type :=
| ENOMEM
| Granted (junk : nat -> byte).

(** A log line: the format and the numbers printed into it. *)
Inductive printk_entry : Type :=
| KERN_ERR (msg : string)
| KERN_INFO_fb0_reports (bpp ro rl go gl bo bl : Z)
| KERN_INFO_framebuffer (w h : Z).

(** The number [%d] prints for a 32-bit argument: its bits read as a signed
    [int]. *)
Definition as_int (z : Z) : Z := (z + 2 ^ 31) mod 2 ^ 32 - 2 ^ 31.

(** ** The state *)

(** The statics of the file, and what it uses of the rest of the kernel:
    the registered framebuffers ([registered_fb]; [num_registered_fb] is the
    length of the list), the heap, what the allocator will answer, and the
    log that [printk] appends to.  [kslack b] are the bytes that lie behind
    block [b] of the heap, in the rest of its size class. *)
Record kernel : Type := mkKernel {
  (* statics of graphics_fbdev.c *)
  gr_framebuffer0 : GRSurface;
  gr_framebuffer1 : GRSurface;
  double_buffered : bool;
  gr_draw : surf_ptr;
  displayed_buffer : Z;
  vi : fb_var_screeninfo;
  fbi : option nat;
  (* the rest of the kernel *)
  registered_fb : list fb_info;
  kheap : list (option cell);
  kslack : nat -> list byte;
  kmalloc_plan : list alloc_reply;
  klog : list printk_entry
}.

Definition set_gr_framebuffer0 (s : GRSurface) (k : kernel) : kernel :=
  mkKernel s (gr_framebuffer1 k) (double_buffered k) (gr_draw k)
    (displayed_buffer k) (vi k) (fbi k) (registered_fb k) (kheap k) (kslack k)
    (kmalloc_plan k) (klog k).
Definition set_gr_framebuffer1 (s : GRSurface) (k : kernel) : kernel :=
  mkKernel (gr_framebuffer0 k) s (double_buffered k) (gr_draw k)
    (displayed_buffer k) (vi k) (fbi k) (registered_fb k) (kheap k) (kslack k)
    (kmalloc_plan k) (klog k).
Definition set_double_buffered (b : bool) (k : kernel) : kernel :=
  mkKernel (gr_framebuffer0 k) (gr_framebuffer1 k) b (gr_draw k)
    (displayed_buffer k) (vi k) (fbi k) (registered_fb k) (kheap k) (kslack k)
    (kmalloc_plan k) (klog k).
Definition set_gr_draw (p : surf_ptr) (k : kernel) : kernel :=
  mkKernel (gr_framebuffer0 k) (gr_framebuffer1 k) (double_buffered k) p
    (displayed_buffer k) (vi k) (fbi k) (registered_fb k) (kheap k) (kslack k)
    (kmalloc_plan k) (klog k).
Definition set_displayed_buffer (n : Z) (k : kernel) : kernel :=
  mkKernel (gr_framebuffer0 k) (gr_framebuffer1 k) (double_buffered k)
    (gr_draw k) n (vi k) (fbi k) (registered_fb k) (kheap k) (kslack k)
    (kmalloc_plan k) (klog k).
Definition set_vi (v : fb_var_screeninfo) (k : kernel) : kernel :=
  mkKernel (gr_framebuffer0 k) (gr_framebuffer1 k) (double_buffered k)
    (gr_draw k) (displayed_buffer k) v (fbi k) (registered_fb k) (kheap k)
    (kslack k) (kmalloc_plan k) (klog k).
Definition set_fbi (f : option nat) (k : kernel) : kernel :=
  mkKernel (gr_framebuffer0 k) (gr_framebuffer1 k) (double_buffered k)
    (gr_draw k) (displayed_buffer k) (vi k) f (registered_fb k) (kheap k)
    (kslack k) (kmalloc_plan k) (klog k).
Definition set_registered_fb (l : list fb_info) (k : kernel) : kernel :=
  mkKernel (gr_framebuffer0 k) (gr_framebuffer1 k) (double_buffered k)
    (gr_draw k) (displayed_buffer k) (vi k) (fbi k) l (kheap k) (kslack k)
    (kmalloc_plan k) (klog k).
Definition set_kheap (h : list (option cell)) (k : kernel) : kernel :=
  mkKernel (gr_framebuffer0 k) (gr_framebuffer1 k) (double_buffered k)
    (gr_draw k) (displayed_buffer k) (vi k) (fbi k) (registered_fb k) h
    (kslack k) (kmalloc_plan k) (klog k).
Definition set_kslack (t : nat -> list byte) (k : kernel) : kernel :=
  mkKernel (gr_framebuffer0 k) (gr_framebuffer1 k) (double_buffered k)
    (gr_draw k) (displayed_buffer k) (vi k) (fbi k) (registered_fb k)
    (kheap k) t (kmalloc_plan k) (klog k).
Definition set_kmalloc_plan (p : list alloc_reply) (k : kernel) : kernel :=
  mkKernel (gr_framebuffer0 k) (gr_framebuffer1 k) (double_buffered k)
    (gr_draw k) (displayed_buffer k) (vi k) (fbi k) (registered_fb k)
    (kheap k) (kslack k) p (klog k).
Definition set_klog (l : list printk_entry) (k : kernel) : kernel :=
  mkKernel (gr_framebuffer0 k) (gr_framebuffer1 k) (double_buffered k)
    (gr_draw k) (displayed_buffer k) (vi k) (fbi k) (registered_fb k)
    (kheap k) (kslack k) (kmalloc_plan k) l.

(** ** The monad: state passing, with faults *)

Inductive fault : Type :=
| NullDeref        (* access through NULL *)
| WildPointer      (* access to a block that is not live *)
| OutOfBounds      (* access outside the block (a read: and its slack) *)
| Overlap          (* memcpy between overlapping ranges *)
| BadFree          (* kfree of something kmalloc did not return *)
| Hang.            (* a loop that does not end *)

Inductive outcome (A : Type) : Type :=
| Ok (a : A)
| Fault (f : fault).
Arguments Ok {A} a.
Arguments Fault {A} f.

Definition M (A : Type) : Type := kernel -> outcome (A * kernel).

Definition ret {A} (a : A) : M A := fun k => Ok (a, k).
Definition bind {A B} (c : M A) (f : A -> M B) : M B :=
  fun k => match c k with
           | Ok (a, k1) => f a k1
           | Fault e => Fault e
           end.
Definition crash {A} (e : fault) : M A := fun _ => Fault e.
Definition gets {A} (f : kernel -> A) : M A := fun k => Ok (f k, k).
Definition modify (f : kernel -> kernel) : M unit := fun k => Ok (tt, f k).

Notation "'let*' x := c1 'in' c2" := (bind c1 (fun x => c2))
  (at level 10, x name, c1 at level 100, c2 at level 200).

(** ** Byte memory *)

Definition region (b : base) (k : kernel) : option (list byte) :=
  match b with
  | Vram i => vram <$> registered_fb k !! i
  | Kmem n =>
      match kheap k !! n with
      | Some (Some (Buffer bs)) => Some bs
      | _ => None
      end
  end.

Definition set_region (b : base) (bs : list byte) (k : kernel) : kernel :=
  match b with
  | Vram i => set_registered_fb (alter (set_vram bs) i (registered_fb k)) k
  | Kmem n => set_kheap (<[n := Some (Buffer bs)]> (kheap k)) k
  end.

Definition in_range (off n : Z) (len : nat) : bool :=
  (0 <=? off) && (0 <=? n) && (off + n <=? Z.of_nat len).

Definition slice (bs : list byte) (off n : nat) : list byte :=
  take n (drop off bs).

Definition splice (bs : list byte) (off : nat) (new : list byte) : list byte :=
  take off bs ++ new ++ drop (off + length new) bs.

(** What a read finds at a block: its bytes and, behind those of a kmalloc
    block, the rest of its size class.  A store reaches the bytes of the
    block only. *)
Definition readable (b : base) (k : kernel) : option (list byte) :=
  match b with
  | Vram i => region (Vram i) k
  | Kmem n => (fun bs => bs ++ kslack k n) <$> region (Kmem n) k
  end.

Definition load (p : ptr) (n : Z) : M (list byte) := fun k =>
  match p with
  | NULL => Fault NullDeref
  | Ptr b off =>
      match readable b k with
      | None => Fault WildPointer
      | Some bs =>
          if in_range off n (length bs)
          then Ok (slice bs (Z.to_nat off) (Z.to_nat n), k)
          else Fault OutOfBounds
      end
  end.

Definition store (p : ptr) (new : list byte) : M unit := fun k =>
  match p with
  | NULL => Fault NullDeref
  | Ptr b off =>
      match region b k with
      | None => Fault WildPointer
      | Some bs =>
          if in_range off (Z.of_nat (length new)) (length bs)
          then Ok (tt, set_region b (splice bs (Z.to_nat off) new) k)
          else Fault OutOfBounds
      end
  end.

Definition load_byte (p : ptr) (i : Z) : M byte :=
  let* bs := load (ptr_add p i) 1 in
  match bs with
  | [b] => ret b
  | _ => crash OutOfBounds
  end.

Definition store_byte (p : ptr) (i : Z) (b : byte) : M unit :=
  store (ptr_add p i) [b].

Definition memset (p : ptr) (c : byte) (n : Z) : M unit :=
  store p (replicate (Z.to_nat n) c).

Definition overlapping (dst src : ptr) (n : Z) : bool :=
  match dst, src with
  | Ptr (Vram i) d, Ptr (Vram j) s =>
      bool_decide (i = j) && (0 <? n) && (d <? s + n) && (s <? d + n)
  | Ptr (Kmem i) d, Ptr (Kmem j) s =>
      bool_decide (i = j) && (0 <? n) && (d <? s + n) && (s <? d + n)
  | _, _ => false
  end.

Definition memcpy (dst src : ptr) (n : Z) : M unit :=
  let* bs := load src n in
  if overlapping dst src n then crash Overlap else store dst bs.

(** ** Surface descriptors behind a [GRSurface*] *)

Definition read_surface (p : surf_ptr) : M GRSurface := fun k =>
  match p with
  | SNULL => Fault NullDeref
  | Static i =>
      if i =? 0 then Ok (gr_framebuffer0 k, k)
      else if i =? 1 then Ok (gr_framebuffer1 k, k)
      else Fault OutOfBounds
  | Heap b =>
      match kheap k !! b with
      | Some (Some (Descriptor (Some s))) => Ok (s, k)
      | _ => Fault WildPointer
      end
  end.

Definition write_surface (p : surf_ptr) (s : GRSurface) : M unit := fun k =>
  match p with
  | SNULL => Fault NullDeref
  | Static i =>
      if i =? 0 then Ok (tt, set_gr_framebuffer0 s k)
      else if i =? 1 then Ok (tt, set_gr_framebuffer1 s k)
      else Fault OutOfBounds
  | Heap b =>
      match kheap k !! b with
      | Some (Some (Descriptor _)) =>
          Ok (tt, set_kheap (<[b := Some (Descriptor (Some s))]> (kheap k)) k)
      | _ => Fault WildPointer
      end
  end.

(** ** kmalloc, kfree, printk *)

(** Modelled from the spec: the allocator behind [kmalloc] and [kfree],
    which is not among the sources.  An allocation either fails or yields a
    block that did not exist before, independent of every other block and of
    video memory, with indeterminate contents; a freed block is never handed
    out again.  The spec has a surface's data be a buffer "of size at least"
    its extent: the allocator serves a request from a size class, and every
    size class of the kernel's allocator is a multiple of 8 bytes.  The
    model takes the least such size, [kmalloc_size n]: the block is the [n]
    bytes asked for, and behind it lie the remaining bytes of the class
    ([kslack]), indeterminate like the block's own. *)
Definition kmalloc_size (n : Z) : Z := (n + 7) / 8 * 8.

Definition kmalloc_cell (mk : (nat -> byte) -> cell * list byte)
  : M (option nat) := fun k =>
  match kmalloc_plan k with
  | Granted junk :: rest =>
      let b := length (kheap k) in
      let slack n := if (n =? b)%nat then (mk junk).2 else kslack k n in
      Ok (Some b,
          set_kmalloc_plan rest
            (set_kslack slack (set_kheap (kheap k ++ [Some (mk junk).1]) k)))
  | ENOMEM :: rest => Ok (None, set_kmalloc_plan rest k)
  | [] => Ok (None, k)
  end.

(** [kmalloc(sizeof(GRSurface), GFP_KERNEL)] *)
Definition kmalloc_surface : M surf_ptr :=
  let* r := kmalloc_cell (fun _ => (Descriptor None, [])) in
  ret (match r with Some b => Heap b | None => SNULL end).

(** [kmalloc(n, GFP_KERNEL)] for a byte buffer *)
Definition kmalloc (n : Z) : M ptr :=
  let* r := kmalloc_cell (fun junk =>
              (Buffer (junk <$> seq 0 (Z.to_nat n)),
               junk <$> seq (Z.to_nat n) (Z.to_nat (kmalloc_size n - n)))) in
  ret (match r with Some b => Ptr (Kmem b) 0 | None => NULL end).

Definition release (b : nat) : M unit := fun k =>
  match kheap k !! b with
  | Some (Some _) => Ok (tt, set_kheap (<[b := None]> (kheap k)) k)
  | _ => Fault BadFree
  end.

Definition kfree (p : ptr) : M unit :=
  match p with
  | NULL => ret tt
  | Ptr (Kmem b) 0 => release b
  | Ptr _ _ => crash BadFree
  end.

Definition kfree_surface (p : surf_ptr) : M unit :=
  match p with
  | SNULL => ret tt
  | Heap b => release b
  | Static _ => crash BadFree
  end.

Definition printk (e : printk_entry) : M unit :=
  modify (fun k => set_klog (klog k ++ [e]) k).

(** ** The driver entry point *)

Definition the_fb (f : option nat) : M fb_info := fun k =>
  match f with
  | None => Fault NullDeref
  | Some i =>
      match registered_fb k !! i with
      | Some fb => Ok (fb, k)
      | None => Fault WildPointer
      end
  end.

(** [fb->fbops->fb_ioctl(fb, cmd, arg)]: the request goes to the driver of
    [fb]; the result is the return code. *)
Definition fb_ioctl (f : option nat) (rq : ioctl_request) : M Z :=
  let* fb := the_fb f in
  let r_fb := fb_request rq fb in
  let* _ := modify (fun k =>
    set_registered_fb (<[default 0%nat f := r_fb.2]> (registered_fb k)) k) in
  ret r_fb.1.

(** [fb->fbops->fb_ioctl(fb, FBIOGET_FSCREENINFO, &fi)]: what the driver
    writes to [fi]; the return code is dropped (line 78). *)
Definition fb_ioctl_get_fscreeninfo (f : option nat) : M fb_fix_screeninfo :=
  let* fb := the_fb f in
  let* _ := fb_ioctl f FBIOGET_FSCREENINFO in
  ret (fix_info fb).

(** [fb->fbops->fb_ioctl(fb, FBIOGET_VSCREENINFO, &vi)]: what the driver
    writes to [vi]; the return code is dropped (line 80). *)
Definition fb_ioctl_get_vscreeninfo (f : option nat) : M fb_var_screeninfo :=
  let* fb := the_fb f in
  let* _ := fb_ioctl f FBIOGET_VSCREENINFO in
  ret (var fb).

(** ** graphics_fbdev.c *)

Definition set_yres_virtual (z : Z) (v : fb_var_screeninfo) : fb_var_screeninfo :=
  mkVar (xres v) (yres v) z (yoffset v) (bits_per_pixel v)
        (red v) (green v) (blue v).
Definition set_yoffset (z : Z) (v : fb_var_screeninfo) : fb_var_screeninfo :=
  mkVar (xres v) (yres v) (yres_virtual v) z (bits_per_pixel v)
        (red v) (green v) (blue v).
Definition set_bits_per_pixel (z : Z) (v : fb_var_screeninfo) : fb_var_screeninfo :=
  mkVar (xres v) (yres v) (yres_virtual v) (yoffset v) z
        (red v) (green v) (blue v).

Definition fbdev_blank (blank : bool) : M unit :=
  let* f := gets fbi in
  let* r := fb_ioctl f
              (FBIOBLANK (if blank then FB_BLANK_POWERDOWN else FB_BLANK_UNBLANK)) in
  if r <? 0 then printk (KERN_ERR "ioctl(): blank") else ret tt.

Definition set_displayed_framebuffer (n : Z) : M unit :=
  let* db := gets double_buffered in
  if (1 <? n) || negb db then ret tt else
  let* fb0 := gets gr_framebuffer0 in
  let* _ := modify (fun k => set_vi (set_yres_virtual (umul (height fb0) 2) (vi k)) k) in
  let* _ := modify (fun k => set_vi (set_yoffset (umul n (height fb0)) (vi k)) k) in
  let* _ := modify (fun k =>
              set_vi (set_bits_per_pixel (umul (pixel_bytes fb0) 8) (vi k)) k) in
  let* v := gets vi in
  let* f := gets fbi in
  let* r := fb_ioctl f (FBIOPUT_VSCREENINFO v) in
  let* _ := if r <? 0 then printk (KERN_ERR "active fb swap failed") else ret tt in
  modify (set_displayed_buffer n).

(** [fbdev_init], lines 74-111: find the device, query it, clear its memory
    and describe buffer 0.  The result is [fb] and [fi], or nothing when no
    framebuffer is registered. *)
Definition fbdev_init_probe : M (option (nat * fb_fix_screeninfo)) :=
  let* num_registered_fb := gets (fun k => length (registered_fb k)) in
  if (num_registered_fb =? 0)%nat then ret None else
  let fb := Some 0%nat in
  let* fi := fb_ioctl_get_fscreeninfo fb in
  let* v := fb_ioctl_get_vscreeninfo fb in
  let* _ := modify (set_vi v) in
  let* _ := printk (KERN_INFO_fb0_reports (as_int (bits_per_pixel v))
                      (as_int (bf_offset (red v))) (as_int (bf_length (red v)))
                      (as_int (bf_offset (green v))) (as_int (bf_length (green v)))
                      (as_int (bf_offset (blue v))) (as_int (bf_length (blue v)))) in
  let bits := Ptr (Vram 0) 0 in
  let* fbs := the_fb fb in
  let* _ := memset bits x00 (smem_len (fix_info fbs)) in
  let* _ := modify (set_gr_framebuffer0
              (mkSurface (xres v) (yres v) (line_length fi)
                         (bits_per_pixel v / 8) bits)) in
  let* fb0 := gets gr_framebuffer0 in
  let* _ := memset (data fb0) x00 (umul (height fb0) (row_bytes fb0)) in
  ret (Some (0%nat, fi)).

(** [fbdev_init], lines 113-137: choose the buffering strategy and set up
    the draw surface.  The result tells whether the storage of the shadow
    buffer could not be allocated (the early return of line 135). *)
Definition fbdev_init_strategy (fi : fb_fix_screeninfo) : M bool :=
  let* v := gets vi in
  if umul (umul (yres v) (line_length fi)) 2 <=? smem_len fi then
    let* _ := modify (set_double_buffered true) in
    let* fb0 := gets gr_framebuffer0 in
    let* _ := modify (set_gr_framebuffer1 fb0) in
    let* _ := modify (fun k =>
                set_gr_framebuffer1
                  (set_data (ptr_add (data (gr_framebuffer0 k))
                               (umul (height (gr_framebuffer0 k))
                                     (row_bytes (gr_framebuffer0 k))))
                            (gr_framebuffer1 k)) k) in
    let* _ := modify (set_gr_draw (Static 1)) in
    ret false
  else
    let* _ := modify (set_double_buffered false) in
    let* d := kmalloc_surface in
    let* _ := modify (set_gr_draw d) in
    let* fb0 := gets gr_framebuffer0 in
    let* _ := write_surface d fb0 in
    let* s := read_surface d in
    let* p := kmalloc (umul (height s) (row_bytes s)) in
    let* _ := write_surface d (set_data p s) in
    match p with
    | NULL =>
        let* _ := printk (KERN_ERR "failed to allocate in-memory surface") in
        ret true
    | _ => ret false
    end.

(** [fbdev_init], lines 139-148: clear the draw surface and bring the
    display up. *)
Definition fbdev_init_finish (fb : nat) : M surf_ptr :=
  let* d := gets gr_draw in
  let* s := read_surface d in
  let* _ := memset (data s) x00 (umul (height s) (row_bytes s)) in
  let* _ := modify (set_fbi (Some fb)) in
  let* _ := set_displayed_framebuffer 0 in
  let* _ := printk (KERN_INFO_framebuffer (as_int (width s)) (as_int (height s))) in
  let* _ := fbdev_blank true in
  let* _ := fbdev_blank false in
  gets gr_draw.

(** [fbdev_init], lines 113-148. *)
Definition fbdev_init_buffers (fb : nat) (fi : fb_fix_screeninfo) : M surf_ptr :=
  let* failed := fbdev_init_strategy fi in
  if failed : bool then ret SNULL else fbdev_init_finish fb.

Definition fbdev_init : M surf_ptr :=
  let* probed := fbdev_init_probe in
  match probed with
  | None => ret SNULL
  | Some (fb, fi) => fbdev_init_buffers fb fi
  end.

(** The copy loop of the RECOVERY_BGRA build.  [fuel] bounds the number of
    iterations; [fbdev_flip] gives one more than [ext / 4], which the loop
    exceeds only when [idx] wraps around before reaching [ext], and then it
    never ends. *)
Fixpoint bgra_loop (fuel : nat) (ucfb_vaddr ucbuffer_vaddr : ptr) (ext idx : Z)
  : M unit :=
  if idx <? ext then
    match fuel with
    | O => crash Hang
    | S fuel' =>
        let* b2 := load_byte ucbuffer_vaddr (uadd idx 2) in
        let* _ := store_byte ucfb_vaddr idx b2 in
        let* b1 := load_byte ucbuffer_vaddr (uadd idx 1) in
        let* _ := store_byte ucfb_vaddr (uadd idx 1) b1 in
        let* b0 := load_byte ucbuffer_vaddr idx in
        let* _ := store_byte ucfb_vaddr (uadd idx 2) b0 in
        let* b3 := load_byte ucbuffer_vaddr (uadd idx 3) in
        let* _ := store_byte ucfb_vaddr (uadd idx 3) b3 in
        bgra_loop fuel' ucfb_vaddr ucbuffer_vaddr ext (uadd idx 4)
    end
  else ret tt.

(** [RECOVERY_BGRA] is the build-time switch between the two copies. *)
Definition fbdev_flip (RECOVERY_BGRA : bool) : M surf_ptr :=
  let* db := gets double_buffered in
  let* _ :=
    if db then
      let* d := gets displayed_buffer in
      let* _ := modify (set_gr_draw (Static d)) in
      set_displayed_framebuffer (usub 1 d)
    else
      let* fb0 := gets gr_framebuffer0 in
      let* d := gets gr_draw in
      let* s := read_surface d in
      if RECOVERY_BGRA then
        let ext := umul (height s) (row_bytes s) in
        bgra_loop (Z.to_nat (ext / 4 + 1)) (data fb0) (data s) ext 0
      else
        memcpy (data fb0) (data s) (umul (height s) (row_bytes s)) in
  gets gr_draw.

Definition fbdev_exit : M unit :=
  let* db := gets double_buffered in
  let* d := gets gr_draw in
  let* _ :=
    if negb db && negb (match d with SNULL => true | _ => false end) then
      let* s := read_surface d in
      let* _ := kfree (data s) in
      kfree_surface d
    else ret tt in
  modify (set_gr_draw SNULL).

(** The backend interface of minui.h: the four operations as one value. *)
Module Backend.

Record minui_backend : Type := {
  init : M surf_ptr;
  flip : M surf_ptr;
  blank : bool -> M unit;
  exit : M unit
}.

End Backend.

Definition my_backend (RECOVERY_BGRA : bool) : Backend.minui_backend :=
  {| Backend.init := fbdev_init;
     Backend.flip := fbdev_flip RECOVERY_BGRA;
     Backend.blank := fbdev_blank;
     Backend.exit := fbdev_exit |}.

Definition open_fbdev (RECOVERY_BGRA : bool) : Backend.minui_backend :=
  my_backend RECOVERY_BGRA.

(** The statics as the loader leaves them: zeroed. *)
Definition zero_bitfield : fb_bitfield := mkBitfield 0 0.
Definition zero_var : fb_var_screeninfo :=
  mkVar 0 0 0 0 0 zero_bitfield zero_bitfield zero_bitfield.
Definition zero_surface : GRSurface := mkSurface 0 0 0 0 NULL.

Definition boot (fbs : list fb_info) (plan : list alloc_reply) : kernel :=
  mkKernel zero_surface zero_surface false SNULL 0 zero_var None fbs []
    (fun _ => []) plan [].

(** Any number of flips, one after the other. *)
Inductive flipped (RECOVERY_BGRA : bool) : kernel -> kernel -> Prop :=
| flipped_none k : flipped RECOVERY_BGRA k k
| flipped_more k k1 k2 r :
    flipped RECOVERY_BGRA k k1 ->
    fbdev_flip RECOVERY_BGRA k1 = Ok (r, k2) ->
    flipped RECOVERY_BGRA k k2.

(** * Vocabulary of the specification *)

(** ** Devices *)

(** The byte size of one frame, as line 111 computes it. *)
Definition frame_bytes (fb : fb_info) : Z :=
  umul (yres (var fb)) (line_length (fix_info fb)).

(** The test of line 114. *)
Definition hw_cond (fb : fb_info) : Prop :=
  umul (frame_bytes fb) 2 <= smem_len (fix_info fb).

(** The video memory has the size the device reports. *)
Definition vram_ok (fb : fb_info) : Prop :=
  Z.of_nat (length (vram fb)) = smem_len (fix_info fb).

(** A valid geometry: the stride is positive, the primary buffer lies in
    the video memory, whose size is a 32-bit value. *)
Definition valid_geometry (fb : fb_info) : Prop :=
  0 <= yres (var fb) /\ 0 < line_length (fix_info fb) /\
  in_u32 (bits_per_pixel (var fb)) /\
  yres (var fb) * line_length (fix_info fb) <= smem_len (fix_info fb) < 2 ^ 32 /\
  vram_ok fb.

Definition surface0 (fb : fb_info) : GRSurface :=
  mkSurface (xres (var fb)) (yres (var fb)) (line_length (fix_info fb))
            (bits_per_pixel (var fb) / 8) (Ptr (Vram 0) 0).

Definition surface1 (fb : fb_info) : GRSurface :=
  set_data (Ptr (Vram 0) (0 + frame_bytes fb)) (surface0 fb).

(** The first log line of [fbdev_init] (lines 93-101). *)
Definition fb0_report (fb : fb_info) : printk_entry :=
  let v := var fb in
  KERN_INFO_fb0_reports (as_int (bits_per_pixel v))
    (as_int (bf_offset (red v))) (as_int (bf_length (red v)))
    (as_int (bf_offset (green v))) (as_int (bf_length (green v)))
    (as_int (bf_offset (blue v))) (as_int (bf_length (blue v))).

(** The device after the two queries of lines 78 and 80. *)
Definition queried (fb : fb_info) : fb_info :=
  fb_query FBIOGET_VSCREENINFO (fb_query FBIOGET_FSCREENINFO fb).

Definition all_zero (n : nat) : list byte := replicate n x00.

Definition cleared (fb : fb_info) : fb_info :=
  set_vram (all_zero (length (vram fb))) fb.

(** The state the probe leaves (lines 74-111). *)
Definition probed (fb : fb_info) (fbs : list fb_info) (k : kernel) : kernel :=
  mkKernel (surface0 fb) (gr_framebuffer1 k) (double_buffered k) (gr_draw k)
    (displayed_buffer k) (var fb) (fbi k) (cleared (queried fb) :: fbs) (kheap k)
    (kslack k) (kmalloc_plan k) (klog k ++ [fb0_report fb]).

(** The state after lines 113-121, reached from [probed] when the test of
    line 114 passes. *)
Definition hw_chosen (fb : fb_info) (fbs : list fb_info) (k : kernel) : kernel :=
  set_gr_draw (Static 1)
    (set_gr_framebuffer1 (surface1 fb)
       (set_double_buffered true (probed fb fbs k))).

(** ** Requests to the driver *)

Definition blank_request (blank : bool) : ioctl_request :=
  FBIOBLANK (if blank then FB_BLANK_POWERDOWN else FB_BLANK_UNBLANK).

Definition errors_if_negative (r : Z) (msg : string) : list printk_entry :=
  if r <? 0 then [KERN_ERR msg] else [].

(** The state after request [rq] went to device [i], which was [fb]. *)
Definition requested (i : nat) (rq : ioctl_request) (fb : fb_info) (msg : string)
    (k : kernel) : kernel :=
  set_klog (klog k ++ errors_if_negative (fb_request rq fb).1 msg)
    (set_registered_fb (<[i := (fb_request rq fb).2]> (registered_fb k)) k).

(** What [set_displayed_framebuffer n] writes into [vi]. *)
Definition swap_var (n : Z) (k : kernel) : fb_var_screeninfo :=
  set_bits_per_pixel (umul (pixel_bytes (gr_framebuffer0 k)) 8)
    (set_yoffset (umul n (height (gr_framebuffer0 k)))
       (set_yres_virtual (umul (height (gr_framebuffer0 k)) 2) (vi k))).

Definition swapped (n : Z) (i : nat) (fb : fb_info) (k : kernel) : kernel :=
  set_displayed_buffer n
    (requested i (FBIOPUT_VSCREENINFO (swap_var n k)) fb "active fb swap failed"
       (set_vi (swap_var n k) k)).

(** ** The states [fbdev_init] leaves *)

Definition shadow_descriptor (fb : fb_info) (p : ptr) : option cell :=
  Some (Descriptor (Some (set_data p (surface0 fb)))).

Definition alloc_failed_msg : printk_entry :=
  KERN_ERR "failed to allocate in-memory surface".

(** The allocator refuses the next request. *)
Definition refuses (plan : list alloc_reply) : Prop :=
  match plan with
  | Granted _ :: _ => False
  | _ => True
  end.

Record after_init_hw (fb : fb_info) (fbs : list fb_info) (k k' : kernel) : Prop := {
  hw_flag : double_buffered k' = true;
  hw_fb0 : gr_framebuffer0 k' = surface0 fb;
  hw_fb1 : gr_framebuffer1 k' = surface1 fb;
  hw_draw : gr_draw k' = Static 1;
  hw_displayed : displayed_buffer k' = 0;
  hw_fbi : fbi k' = Some 0%nat;
  hw_heap : kheap k' = kheap k;
  hw_dev : exists fb', registered_fb k' = fb' :: fbs /\
             vram fb' = all_zero (length (vram fb)) /\
             fix_info fb' = fix_info fb
}.

Record after_init_sw (fb : fb_info) (fbs : list fb_info) (k k' : kernel) : Prop := {
  sw_flag : double_buffered k' = false;
  sw_fb0 : gr_framebuffer0 k' = surface0 fb;
  sw_draw : gr_draw k' = Heap (length (kheap k));
  sw_fbi : fbi k' = Some 0%nat;
  sw_heap : kheap k' =
            (kheap k ++ [shadow_descriptor fb (Ptr (Kmem (S (length (kheap k)))) 0)])
            ++ [Some (Buffer (all_zero (Z.to_nat (frame_bytes fb))))];
  sw_dev : exists fb', registered_fb k' = fb' :: fbs /\
             vram fb' = all_zero (length (vram fb)) /\
             fix_info fb' = fix_info fb
}.

Record after_init_failed (fb : fb_info) (fbs : list fb_info) (k k' : kernel) : Prop := {
  nm_flag : double_buffered k' = false;
  nm_fb0 : gr_framebuffer0 k' = surface0 fb;
  nm_draw : gr_draw k' = Heap (length (kheap k));
  nm_fbi : fbi k' = fbi k;
  nm_heap : kheap k' = kheap k ++ [shadow_descriptor fb NULL];
  nm_log : klog k' = klog k ++ [fb0_report fb; alloc_failed_msg];
  nm_dev : registered_fb k' = cleared (queried fb) :: fbs
}.

(** ** States in which [fbdev_flip] runs *)

(** Hardware strategy: device [i] is [fb], one of the two buffers is shown.
    A successful [fbdev_init] leaves such a state ([hw_running_init]) and
    every flip keeps it ([fbdev_flip_hw_ready]). *)
Record hw_ready (i : nat) (fb : fb_info) (k : kernel) : Prop := {
  hr_flag : double_buffered k = true;
  hr_displayed : displayed_buffer k = 0 \/ displayed_buffer k = 1;
  hr_fbi : fbi k = Some i;
  hr_dev : registered_fb k !! i = Some fb
}.

(** Software strategy: the draw surface is descriptor block [d] with value
    [s], its storage is block [b] with the bytes [bs] the caller drew, and
    buffer 0 is the start of the video memory of device 0, which is [fb].
    A successful [fbdev_init] leaves such a state ([fbdev_init_sw_ready]),
    the caller's drawing keeps it ([sw_ready_draw]) and so does every flip. *)
Record sw_ready (d b : nat) (s : GRSurface) (bs : list byte) (fb : fb_info)
    (k : kernel) : Prop := {
  sr_flag : double_buffered k = false;
  sr_draw : gr_draw k = Heap d;
  sr_desc : kheap k !! d = Some (Some (Descriptor (Some s)));
  sr_data : data s = Ptr (Kmem b) 0;
  sr_bytes : kheap k !! b = Some (Some (Buffer bs));
  sr_len : Z.of_nat (length bs) = height s * row_bytes s;
  sr_u32 : height s * row_bytes s < 2 ^ 32;
  sr_fb0 : data (gr_framebuffer0 k) = Ptr (Vram 0) 0;
  sr_dev : registered_fb k !! 0%nat = Some fb;
  sr_fit : height s * row_bytes s <= Z.of_nat (length (vram fb))
}.

(** Hardware strategy on the device [fbdev_init] found as [fb]: some flips
    later buffer 0 is still described as [fbdev_init] left it. *)
Definition hw_running (fb : fb_info) (k : kernel) : Prop :=
  (exists dev, hw_ready 0 dev k) /\ gr_framebuffer0 k = surface0 fb.

(** The bytes behind a surface pointer, over the surface's full extent. *)
Definition surface_bytes (p : surf_ptr) (k : kernel) : option (list byte) :=
  match read_surface p k with
  | Ok (s, _) =>
      match load (data s) (height s * row_bytes s) k with
      | Ok (bs, _) => Some bs
      | Fault _ => None
      end
  | Fault _ => None
  end.

(** The state without the contents of the video memories. *)
Definition erase_vram (k : kernel) : kernel :=
  set_registered_fb (set_vram [] <$> registered_fb k) k.

(** Pixels of four bytes. *)
Definition pixel : Type := byte * byte * byte * byte.

Definition rgba (p : pixel) : list byte :=
  let '(r, g, b, a) := p in [r; g; b; a].

Definition bgra (p : pixel) : list byte :=
  let '(r, g, b, a) := p in [b; g; r; a].

(** The state a call leaves (the state it started in when it faults). *)
Definition state_after {A} (c : M A) (k : kernel) : kernel :=
  match c k with
  | Ok (_, k') => k'
  | Fault _ => k
  end.

(** ** Small devices for the examples *)

Definition rgbx : fb_var_screeninfo :=
  mkVar 2 2 2 0 32 (mkBitfield 0 8) (mkBitfield 8 8) (mkBitfield 16 8).

(** A 2 x 2 panel, 8 bytes per row, with [smem] bytes of video memory holding
    stale content; [codes] are the return codes of its coming requests. *)
Definition panel (smem : Z) (codes : list Z) : fb_info :=
  mkFb (mkFix smem 8) rgbx (replicate (Z.to_nat smem) xff)
       FB_BLANK_UNBLANK [] codes.

Definition stale (_ : nat) : byte := xaa.

(** Two buffers fit the 32 bytes: hardware strategy. *)
Definition hw_boot : kernel := boot [panel 32 []] [].
Definition hw_inited : kernel := state_after fbdev_init hw_boot.
Definition hw_flipped : kernel := state_after (fbdev_flip false) hw_inited.

(** One buffer fits the 20 bytes: software strategy. *)
Definition sw_boot : kernel := boot [panel 20 []] [Granted stale; Granted stale].
Definition sw_inited : kernel := state_after fbdev_init sw_boot.

(** The caller has drawn four pixels into the shadow buffer. *)
Definition sw_pixels : list pixel :=
  [(x01, x02, x03, x04); (x05, x06, x07, x08);
   (x09, x0a, x0b, x0c); (x0d, x0e, x0f, x10)].
Definition sw_drawn : kernel :=
  set_region (Kmem 1) (flat_map rgba sw_pixels) sw_inited.
Definition sw_surface : GRSurface :=
  set_data (Ptr (Kmem 1) 0) (surface0 (panel 20 [])).
Definition sw_device : fb_info :=
  match registered_fb sw_inited with
  | fb :: _ => fb
  | [] => panel 20 []
  end.

(** A panel whose driver accepts the commit and the two power requests of
    [fbdev_init] and refuses the next request with -EINVAL. *)
Definition hw_refusing : kernel :=
  state_after fbdev_init (boot [panel 32 [0; 0; 0; -22]] []).
Definition hw_refusing_device : fb_info :=
  match registered_fb hw_refusing with
  | fb :: _ => fb
  | [] => panel 32 []
  end.

(** ** Further vocabulary *)

(** The driver accepts every coming request. *)
Definition accepting (fb : fb_info) : Prop :=
  Forall (fun r => 0 <= r) (replies fb).

Definition blank_mode_of (blank : bool) : blank_mode :=
  if blank then FB_BLANK_POWERDOWN else FB_BLANK_UNBLANK.

(** The requests [fbdev_init] sends when it returns a surface. *)
Definition init_requests (k' : kernel) : list ioctl_request :=
  [FBIOGET_FSCREENINFO; FBIOGET_VSCREENINFO]
  ++ (if double_buffered k' then [FBIOPUT_VSCREENINFO (vi k')] else [])
  ++ [FBIOBLANK FB_BLANK_POWERDOWN; FBIOBLANK FB_BLANK_UNBLANK].


(** A 16384 x 32768 panel of 32 bits per pixel: one frame takes 2 GiB, and
    that is all the video memory the device has. *)
Definition wide_panel : fb_info :=
  mkFb (mkFix 2147483648 65536)
       (mkVar 16384 32768 32768 0 32
              (mkBitfield 0 8) (mkBitfield 8 8) (mkBitfield 16 8))
       (replicate (Z.to_nat 2147483648) xff) FB_BLANK_UNBLANK [] [].
Definition wide_boot : kernel := boot [wide_panel] [].

(** A 2 x 2 panel of 15 bits per pixel with room for two buffers. *)
Definition hicolor_panel : fb_info :=
  mkFb (mkFix 32 8)
       (mkVar 2 2 2 0 15 (mkBitfield 0 5) (mkBitfield 5 5) (mkBitfield 10 5))
       (replicate 32 xff) FB_BLANK_UNBLANK [] [].
Definition hicolor_inited : kernel :=
  state_after fbdev_init (boot [hicolor_panel] []).

(** The screen information lines 60-62 build for buffer 0 of device [fb]. *)
Definition committed (fb : fb_info) : fb_var_screeninfo :=
  set_bits_per_pixel (umul (bits_per_pixel (var fb) / 8) 8)
    (set_yoffset (umul 0 (yres (var fb)))
       (set_yres_virtual (umul (yres (var fb)) 2) (var fb))).

(** The second log line of [fbdev_init] (line 143). *)
Definition framebuffer_line (fb : fb_info) : printk_entry :=
  KERN_INFO_framebuffer (as_int (xres (var fb))) (as_int (yres (var fb))).

(** * Reasoning about runs *)

Arguments bind {A B} c f k /.
Arguments ret {A} a k /.
Arguments gets {A} f k /.
Arguments modify f k /.
Arguments crash {A} e k /.
Arguments printk e k /.
Arguments the_fb f k /.
Arguments fb_ioctl f rq k /.
Arguments fb_ioctl_get_fscreeninfo f k /.
Arguments fb_ioctl_get_vscreeninfo f k /.
Arguments memset p c n k /.
Arguments fb_request : simpl never.
Arguments as_int : simpl never.
Arguments kmalloc_size : simpl never.
Arguments fbdev_blank : simpl never.
Arguments set_displayed_framebuffer : simpl never.

(** ** Arithmetic *)

Lemma u32_in_range z : in_u32 (u32 z).
Proof. unfold in_u32, u32. apply Z.mod_pos_bound. lia. Qed.

Lemma u32_small z : in_u32 z -> u32 z = z.
Proof. unfold in_u32, u32. intros. apply Z.mod_small. lia. Qed.

Lemma umul_in_range a b : in_u32 (umul a b).
Proof. apply u32_in_range. Qed.

Lemma umul_small a b : in_u32 (a * b) -> umul a b = a * b.
Proof. apply u32_small. Qed.

Lemma uadd_small a b : in_u32 (a + b) -> uadd a b = a + b.
Proof. apply u32_small. Qed.

(** ** Lists of bytes *)

Lemma splice_length (bs new : list byte) (off : nat) :
  (off + length new <= length bs)%nat ->
  length (splice bs off new) = length bs.
Proof.
  intros H. unfold splice.
  rewrite !length_app, length_take, length_drop.
  rewrite Nat.min_l by lia. lia.
Qed.

Lemma splice_replicate (m off n : nat) (c : byte) :
  (off + n <= m)%nat ->
  splice (replicate m c) off (replicate n c) = replicate m c.
Proof.
  intros H. unfold splice.
  rewrite take_replicate, drop_replicate, length_replicate.
  rewrite Nat.min_l by lia.
  rewrite <- !replicate_add. f_equal. lia.
Qed.

Lemma splice_all (bs new : list byte) :
  length new = length bs -> splice bs 0 new = new.
Proof.
  intros H. unfold splice. simpl.
  rewrite drop_ge by lia. apply app_nil_r.
Qed.

Lemma splice_front (bs new : list byte) :
  splice bs 0 new = new ++ drop (length new) bs.
Proof. reflexivity. Qed.

Lemma splice_singleton (bs : list byte) (i : nat) (x : byte) :
  (i < length bs)%nat -> splice bs i [x] = <[i := x]> bs.
Proof.
  intros H. unfold splice. simpl.
  rewrite insert_take_drop by lia. do 3 f_equal. lia.
Qed.

Lemma slice_all (bs : list byte) : slice bs 0 (length bs) = bs.
Proof. unfold slice. rewrite drop_0. apply take_ge. lia. Qed.

Lemma slice_replicate (m off n : nat) (c : byte) :
  (off + n <= m)%nat -> slice (replicate m c) off n = replicate n c.
Proof.
  intros H. unfold slice. rewrite drop_replicate, take_replicate.
  f_equal. apply Nat.min_l. lia.
Qed.

Lemma slice_singleton (bs : list byte) (i : nat) (x : byte) :
  bs !! i = Some x -> slice bs i 1 = [x].
Proof.
  intros H. unfold slice.
  rewrite <- (Nat.add_0_r i), <- lookup_drop in H.
  destruct (drop i bs); simpl in *; [discriminate |].
  rewrite take_0. congruence.
Qed.

Lemma in_range_true off n len :
  0 <= off -> 0 <= n -> off + n <= Z.of_nat len -> in_range off n len = true.
Proof.
  intros. unfold in_range.
  rewrite !andb_true_iff, !Z.leb_le. auto.
Qed.

Lemma in_range_false off n len :
  Z.of_nat len < off + n -> in_range off n len = false.
Proof.
  intros. unfold in_range.
  rewrite !andb_false_iff, !Z.leb_gt. auto.
Qed.

(** ** Reading a block *)

Lemma slice_app_l (bs more : list byte) (off n : nat) :
  (off + n <= length bs)%nat -> slice (bs ++ more) off n = slice bs off n.
Proof.
  intros H. unfold slice. rewrite drop_app_le by lia.
  apply take_app_le. rewrite length_drop. lia.
Qed.

(** The bytes a read can reach behind block [b]. *)
Lemma readable_region b k bs :
  region b k = Some bs ->
  readable b k
    = Some (bs ++ match b with Vram _ => [] | Kmem n => kslack k n end).
Proof.
  intros H. destruct b as [i | n]; unfold readable.
  - rewrite H, app_nil_r. reflexivity.
  - rewrite H. reflexivity.
Qed.

(** A read inside the block finds the bytes of the block. *)
Lemma load_run b off n bs k :
  region b k = Some bs -> 0 <= off -> 0 <= n ->
  off + n <= Z.of_nat (length bs) ->
  load (Ptr b off) n k = Ok (slice bs (Z.to_nat off) (Z.to_nat n), k).
Proof.
  intros Hr H1 H2 H3. unfold load. rewrite (readable_region b k bs Hr).
  rewrite in_range_true; [| rewrite ?length_app; lia ..].
  rewrite slice_app_l by lia. reflexivity.
Qed.

(** ** The heap grows at its end *)

Lemma lookup_snoc {A} (h : list A) (x : A) : (h ++ [x]) !! length h = Some x.
Proof. apply list_lookup_middle. reflexivity. Qed.

Lemma insert_snoc {A} (h : list A) (x y : A) :
  <[length h := y]> (h ++ [x]) = h ++ [y].
Proof.
  rewrite insert_app_r_alt by lia.
  replace (length h - length h)%nat with 0%nat by lia. reflexivity.
Qed.

Lemma lookup_snoc2 {A} (h : list A) (x y : A) :
  ((h ++ [x]) ++ [y]) !! length h = Some x.
Proof.
  rewrite lookup_app_l by (rewrite length_app; simpl; lia).
  apply lookup_snoc.
Qed.

Lemma insert_snoc2 {A} (h : list A) (x y z : A) :
  <[length h := z]> ((h ++ [x]) ++ [y]) = (h ++ [z]) ++ [y].
Proof.
  rewrite <- !(assoc_L (++)). simpl.
  rewrite insert_app_r_alt by lia.
  replace (length h - length h)%nat with 0%nat by lia. reflexivity.
Qed.

Lemma length_snoc {A} (h : list A) (x : A) : length (h ++ [x]) = S (length h).
Proof. rewrite length_app. simpl. lia. Qed.

Lemma lookup_snoc2_last {A} (h : list A) (x y : A) :
  ((h ++ [x]) ++ [y]) !! S (length h) = Some y.
Proof. rewrite <- (length_snoc h x). apply lookup_snoc. Qed.

Lemma insert_snoc2_last {A} (h : list A) (x y z : A) :
  <[S (length h) := z]> ((h ++ [x]) ++ [y]) = (h ++ [x]) ++ [z].
Proof. rewrite <- (length_snoc h x). apply insert_snoc. Qed.

(** ** Geometry *)

Lemma frame_bytes_range fb : 0 <= frame_bytes fb < 2 ^ 32.
Proof. apply umul_in_range. Qed.

Lemma valid_frame_bytes fb :
  valid_geometry fb ->
  frame_bytes fb = yres (var fb) * line_length (fix_info fb).
Proof.
  intros (Hy & Hl & _ & Hfit & _). unfold frame_bytes.
  apply umul_small. unfold in_u32. nia.
Qed.

Lemma valid_vram_ok fb : valid_geometry fb -> vram_ok fb.
Proof. intros (_ & _ & _ & _ & H). exact H. Qed.

Lemma valid_frame_fits fb :
  valid_geometry fb -> frame_bytes fb <= smem_len (fix_info fb).
Proof.
  intros H. rewrite (valid_frame_bytes fb H).
  destruct H as (_ & _ & _ & Hfit & _). lia.
Qed.

(** With a valid geometry the test of line 114 is the inequality on the
    exact product. *)
Lemma valid_hw_cond fb :
  valid_geometry fb ->
  yres (var fb) * line_length (fix_info fb) * 2 <= smem_len (fix_info fb) ->
  hw_cond fb /\ 2 * frame_bytes fb <= smem_len (fix_info fb).
Proof.
  intros H Hc. unfold hw_cond. rewrite (valid_frame_bytes fb H).
  destruct H as (Hy & Hl & _ & Hfit & _).
  rewrite umul_small; [lia |]. unfold in_u32. nia.
Qed.

(** ** The driver requests *)

Lemma set_klog_same k : set_klog (klog k ++ []) k = k.
Proof. destruct k. unfold set_klog. cbn. rewrite app_nil_r. reflexivity. Qed.

Lemma fbdev_blank_run blank i fb k :
  fbi k = Some i -> registered_fb k !! i = Some fb ->
  fbdev_blank blank k =
    Ok (tt, requested i (blank_request blank) fb "ioctl(): blank" k).
Proof.
  intros Hi Hfb. unfold fbdev_blank, fb_ioctl, requested, errors_if_negative.
  cbn. rewrite Hi. cbn. rewrite Hfb. cbn.
  fold (blank_request blank).
  destruct ((fb_request (blank_request blank) fb).1 <? 0); cbn.
  - reflexivity.
  - rewrite <- (set_klog_same (set_registered_fb _ k)) at 1. reflexivity.
Qed.

Lemma set_displayed_framebuffer_run n i fb k :
  double_buffered k = true -> n <= 1 ->
  fbi k = Some i -> registered_fb k !! i = Some fb ->
  set_displayed_framebuffer n k = Ok (tt, swapped n i fb k).
Proof.
  intros Hdb Hn Hi Hfb.
  unfold set_displayed_framebuffer, fb_ioctl, swapped, requested, errors_if_negative.
  cbn. rewrite Hdb. replace (1 <? n) with false by (symmetry; apply Z.ltb_ge; lia).
  cbn. rewrite Hi. cbn. rewrite Hfb. cbn.
  fold (swap_var n k).
  destruct ((fb_request _ fb).1 <? 0); cbn.
  - reflexivity.
  - do 2 f_equal.
    rewrite <- (set_klog_same (set_registered_fb _ _)) at 1. reflexivity.
Qed.

Lemma set_displayed_framebuffer_single n k :
  double_buffered k = false -> set_displayed_framebuffer n k = Ok (tt, k).
Proof.
  intros Hdb. unfold set_displayed_framebuffer. cbn. rewrite Hdb.
  rewrite orb_true_r. reflexivity.
Qed.

Lemma fb_request_vram rq fb : vram (fb_request rq fb).2 = vram fb.
Proof. unfold fb_request. cbn. destruct (next_reply fb <? 0), rq; reflexivity. Qed.

Lemma fb_request_fix rq fb : fix_info (fb_request rq fb).2 = fix_info fb.
Proof. unfold fb_request. cbn. destruct (next_reply fb <? 0), rq; reflexivity. Qed.

Lemma fb_request_issued rq fb : issued (fb_request rq fb).2 = issued fb ++ [rq].
Proof. unfold fb_request. cbn. destruct (next_reply fb <? 0), rq; reflexivity. Qed.

Lemma fb_request_refused rq fb :
  next_reply fb < 0 ->
  var (fb_request rq fb).2 = var fb /\ power (fb_request rq fb).2 = power fb.
Proof.
  intros H. unfold fb_request.
  destruct rq; cbn; try (split; reflexivity);
    replace (next_reply fb <? 0) with true by (symmetry; apply Z.ltb_lt; lia);
    split; reflexivity.
Qed.

Lemma fb_request_getf fb :
  fb_request FBIOGET_FSCREENINFO fb = (0, fb_query FBIOGET_FSCREENINFO fb).
Proof. reflexivity. Qed.

Lemma fb_request_getv fb :
  fb_request FBIOGET_VSCREENINFO fb = (0, fb_query FBIOGET_VSCREENINFO fb).
Proof. reflexivity. Qed.

(** ** [fbdev_init], lines 74-111 *)

Lemma probe_ok k fb fbs :
  registered_fb k = fb :: fbs -> vram_ok fb ->
  frame_bytes fb <= smem_len (fix_info fb) ->
  fbdev_init_probe k = Ok (Some (0%nat, fix_info fb), probed fb fbs k).
Proof.
  intros Hreg Hv Hfit. pose proof (frame_bytes_range fb) as Hr.
  unfold vram_ok in Hv. unfold frame_bytes in *.
  destruct k as [f0 f1 db dr disp v fi regs heap slack plan log].
  simpl in Hreg; subst regs.
  unfold fbdev_init_probe. cbn.
  rewrite fb_request_getf, fb_request_getv. cbn.
  rewrite length_replicate.
  rewrite in_range_true; [| lia ..]. cbn.
  rewrite length_replicate, splice_length; [| rewrite length_replicate; lia].
  rewrite in_range_true; [| lia ..]. cbn.
  unfold probed, cleared, queried, set_vram, all_zero; cbn. do 4 f_equal.
  rewrite (splice_all (vram fb)); [| rewrite length_replicate; lia].
  rewrite <- Hv, Nat2Z.id.
  rewrite splice_replicate; [reflexivity | lia].
Qed.

Lemma probe_oob k fb fbs :
  registered_fb k = fb :: fbs -> vram_ok fb ->
  smem_len (fix_info fb) < frame_bytes fb ->
  fbdev_init_probe k = Fault OutOfBounds.
Proof.
  intros Hreg Hv Hfit. pose proof (frame_bytes_range fb) as Hr.
  unfold vram_ok in Hv. unfold frame_bytes in *.
  destruct k as [f0 f1 db dr disp v fi regs heap slack plan log].
  simpl in Hreg; subst regs.
  unfold fbdev_init_probe. cbn.
  rewrite fb_request_getf, fb_request_getv. cbn.
  rewrite length_replicate.
  rewrite in_range_true; [| lia ..]. cbn.
  rewrite length_replicate, splice_length; [| rewrite length_replicate; lia].
  rewrite in_range_false; [reflexivity | lia].
Qed.

Lemma probe_none k :
  registered_fb k = [] -> fbdev_init_probe k = Ok (None, k).
Proof.
  intros Hreg. unfold fbdev_init_probe. cbn. rewrite Hreg. reflexivity.
Qed.

(** ** [fbdev_init], lines 113-148 *)

Lemma buffers_hw k fb fbs :
  vram_ok fb -> hw_cond fb ->
  2 * frame_bytes fb <= smem_len (fix_info fb) ->
  exists k',
    fbdev_init_buffers 0 (fix_info fb) (probed fb fbs k) = Ok (Static 1, k')
    /\ after_init_hw fb fbs k k'.
Proof.
  intros Hv Hc Hfit. pose proof (frame_bytes_range fb) as Hr.
  unfold vram_ok in Hv. unfold hw_cond in Hc. unfold frame_bytes in *.
  unfold fbdev_init_buffers, fbdev_init_strategy, fbdev_init_finish. cbn.
  apply Z.leb_le in Hc. rewrite Hc. cbn.
  unfold all_zero. rewrite !length_replicate.
  rewrite in_range_true; [| lia ..]. cbn.
  erewrite set_displayed_framebuffer_run; [| reflexivity | lia | reflexivity ..].
  cbn.
  erewrite fbdev_blank_run; [| reflexivity ..]. cbn.
  erewrite fbdev_blank_run; [| reflexivity ..]. cbn.
  eexists; split; [reflexivity |].
  split; try reflexivity.
  eexists; split; [reflexivity |].
  rewrite !fb_request_vram, !fb_request_fix. cbn.
  split; [| reflexivity].
  apply splice_replicate. lia.
Qed.

Lemma buffers_hw_oob k fb fbs :
  vram_ok fb -> hw_cond fb ->
  smem_len (fix_info fb) < 2 * frame_bytes fb ->
  fbdev_init_buffers 0 (fix_info fb) (probed fb fbs k) = Fault OutOfBounds.
Proof.
  intros Hv Hc Hfit. pose proof (frame_bytes_range fb) as Hr.
  unfold vram_ok in Hv. unfold hw_cond in Hc. unfold frame_bytes in *.
  unfold fbdev_init_buffers, fbdev_init_strategy, fbdev_init_finish. cbn.
  apply Z.leb_le in Hc. rewrite Hc. cbn.
  unfold all_zero. rewrite !length_replicate.
  rewrite in_range_false; [reflexivity | lia].
Qed.

Lemma buffers_sw k fb fbs j1 j2 rest :
  ~ hw_cond fb ->
  kmalloc_plan k = Granted j1 :: Granted j2 :: rest ->
  exists k',
    fbdev_init_buffers 0 (fix_info fb) (probed fb fbs k)
      = Ok (Heap (length (kheap k)), k')
    /\ after_init_sw fb fbs k k'.
Proof.
  intros Hc Hplan. pose proof (frame_bytes_range fb) as Hr.
  unfold hw_cond in Hc. unfold frame_bytes in *.
  unfold fbdev_init_buffers, fbdev_init_strategy, fbdev_init_finish. cbn.
  apply Z.nle_gt, Z.leb_gt in Hc. rewrite Hc. cbn.
  unfold kmalloc_surface, kmalloc, kmalloc_cell. cbn. rewrite Hplan. cbn.
  rewrite lookup_snoc. cbn. rewrite insert_snoc, lookup_snoc. cbn.
  rewrite length_snoc, lookup_snoc2. cbn. rewrite insert_snoc2, lookup_snoc2. cbn.
  rewrite lookup_snoc2_last. cbn.
  rewrite length_replicate, length_fmap, length_seq.
  rewrite in_range_true; [| lia ..]. cbn.
  rewrite set_displayed_framebuffer_single; [| reflexivity]. cbn.
  erewrite fbdev_blank_run; [| reflexivity ..]. cbn.
  erewrite fbdev_blank_run; [| reflexivity ..]. cbn.
  eexists; split; [reflexivity |].
  split; try reflexivity.
  - cbn. rewrite insert_snoc2_last. unfold shadow_descriptor, all_zero. do 4 f_equal.
    apply splice_all. rewrite length_replicate, length_fmap, length_seq. reflexivity.
  - eexists; split; [reflexivity |].
    rewrite !fb_request_vram, !fb_request_fix. split; reflexivity.
Qed.

Lemma buffers_sw_no_data k fb fbs j1 rest :
  ~ hw_cond fb ->
  kmalloc_plan k = Granted j1 :: rest -> refuses rest ->
  exists k',
    fbdev_init_buffers 0 (fix_info fb) (probed fb fbs k) = Ok (SNULL, k')
    /\ after_init_failed fb fbs k k'.
Proof.
  intros Hc Hplan Hrest.
  unfold hw_cond in Hc. unfold frame_bytes in *.
  unfold fbdev_init_buffers, fbdev_init_strategy, fbdev_init_finish. cbn.
  apply Z.nle_gt, Z.leb_gt in Hc. rewrite Hc. cbn.
  unfold kmalloc_surface, kmalloc, kmalloc_cell. cbn. rewrite Hplan. cbn.
  rewrite lookup_snoc. cbn. rewrite insert_snoc, lookup_snoc. cbn.
  destruct rest as [|[|j2] rest']; [| | destruct Hrest]; cbn;
    rewrite lookup_snoc; cbn; rewrite insert_snoc;
    (eexists; split; [reflexivity |]);
    split; try reflexivity;
    cbn; rewrite <- (assoc_L (++)); reflexivity.
Qed.

Lemma buffers_sw_no_descriptor k fb fbs :
  ~ hw_cond fb -> refuses (kmalloc_plan k) ->
  fbdev_init_buffers 0 (fix_info fb) (probed fb fbs k) = Fault NullDeref.
Proof.
  intros Hc Hplan.
  unfold hw_cond in Hc. unfold frame_bytes in *.
  unfold fbdev_init_buffers, fbdev_init_strategy, fbdev_init_finish. cbn.
  apply Z.nle_gt, Z.leb_gt in Hc. rewrite Hc. cbn.
  unfold kmalloc_surface, kmalloc, kmalloc_cell. cbn.
  destruct (kmalloc_plan k) as [|[|j1] rest]; [| | destruct Hplan]; reflexivity.
Qed.

(** ** The runs of [fbdev_init] *)

Lemma fbdev_init_no_device k :
  registered_fb k = [] -> fbdev_init k = Ok (SNULL, k).
Proof.
  intros Hreg. unfold fbdev_init, bind. rewrite (probe_none k Hreg). reflexivity.
Qed.

Lemma fbdev_init_after_probe k fb fbs :
  registered_fb k = fb :: fbs -> vram_ok fb ->
  frame_bytes fb <= smem_len (fix_info fb) ->
  fbdev_init k = fbdev_init_buffers 0 (fix_info fb) (probed fb fbs k).
Proof.
  intros Hreg Hv Hfit. unfold fbdev_init, bind.
  rewrite (probe_ok k fb fbs Hreg Hv Hfit). reflexivity.
Qed.

(** Every run of [fbdev_init] that comes back is one of three. *)
Lemma fbdev_init_cases k fb fbs r k' :
  registered_fb k = fb :: fbs -> vram_ok fb ->
  fbdev_init k = Ok (r, k') ->
  frame_bytes fb <= smem_len (fix_info fb) /\
  ((hw_cond fb /\ 2 * frame_bytes fb <= smem_len (fix_info fb) /\
    r = Static 1 /\ after_init_hw fb fbs k k') \/
   (~ hw_cond fb /\ r = Heap (length (kheap k)) /\ after_init_sw fb fbs k k') \/
   (~ hw_cond fb /\ r = SNULL /\ after_init_failed fb fbs k k')).
Proof.
  intros Hreg Hv H.
  destruct (Z_le_gt_dec (frame_bytes fb) (smem_len (fix_info fb))) as [Hfit | Hfit].
  2: { unfold fbdev_init, bind in H.
       rewrite (probe_oob k fb fbs Hreg Hv) in H by lia. discriminate. }
  split; [exact Hfit |].
  rewrite (fbdev_init_after_probe k fb fbs Hreg Hv Hfit) in H.
  destruct (Z_le_gt_dec (umul (frame_bytes fb) 2) (smem_len (fix_info fb)))
    as [Hc | Hc].
  - destruct (Z_le_gt_dec (2 * frame_bytes fb) (smem_len (fix_info fb)))
      as [Hfit2 | Hfit2].
    + destruct (buffers_hw k fb fbs Hv Hc Hfit2) as (k1 & Hrun & Hafter).
      rewrite Hrun in H. injection H as <- <-. left. auto.
    + rewrite (buffers_hw_oob k fb fbs Hv Hc) in H by lia. discriminate.
  - assert (~ hw_cond fb) as Hn by (unfold hw_cond; lia).
    right.
    destruct (kmalloc_plan k) as [| [| j1] plan1] eqn:Hplan.
    + rewrite buffers_sw_no_descriptor in H; [discriminate | exact Hn |].
      rewrite Hplan. exact I.
    + rewrite buffers_sw_no_descriptor in H; [discriminate | exact Hn |].
      rewrite Hplan. exact I.
    + destruct plan1 as [| [| j2] rest].
      * destruct (buffers_sw_no_data k fb fbs j1 [] Hn Hplan I)
          as (k1 & Hrun & Hafter).
        rewrite Hrun in H. injection H as <- <-. right. auto.
      * destruct (buffers_sw_no_data k fb fbs j1 (ENOMEM :: rest) Hn Hplan I)
          as (k1 & Hrun & Hafter).
        rewrite Hrun in H. injection H as <- <-. right. auto.
      * destruct (buffers_sw k fb fbs j1 j2 rest Hn Hplan) as (k1 & Hrun & Hafter).
        rewrite Hrun in H. injection H as <- <-. left. auto.
Qed.

(** For every device the flag is the outcome of the test of line 114, in the
    32-bit arithmetic of that line. *)
Lemma fbdev_init_flag_is_test k fb fbs r k' :
  registered_fb k = fb :: fbs -> vram_ok fb ->
  fbdev_init k = Ok (r, k') ->
  double_buffered k' = true <-> hw_cond fb.
Proof.
  intros Hreg Hv H.
  destruct (fbdev_init_cases k fb fbs r k' Hreg Hv H)
    as (_ & [(Hc & _ & _ & A) | [(Hc & _ & A) | (Hc & _ & A)]]).
  - split; [intros _; exact Hc | intros _; apply (hw_flag _ _ _ _ A)].
  - rewrite (sw_flag _ _ _ _ A). split; [discriminate | contradiction].
  - rewrite (nm_flag _ _ _ _ A). split; [discriminate | contradiction].
Qed.

Lemma fbdev_init_hw k fb fbs :
  registered_fb k = fb :: fbs -> valid_geometry fb ->
  yres (var fb) * line_length (fix_info fb) * 2 <= smem_len (fix_info fb) ->
  exists k', fbdev_init k = Ok (Static 1, k') /\ after_init_hw fb fbs k k'.
Proof.
  intros Hreg Hg Hc.
  destruct (valid_hw_cond fb Hg Hc) as (Hhw & Hfit2).
  rewrite (fbdev_init_after_probe k fb fbs Hreg (valid_vram_ok fb Hg)
             (valid_frame_fits fb Hg)).
  apply buffers_hw; [exact (valid_vram_ok fb Hg) | exact Hhw | exact Hfit2].
Qed.

(** ** Where the product of line 114 wraps around *)

(** With a frame of 2 GiB or more the 32-bit product of line 114 is
    [2 * frame - 2 ^ 32], which is at most the frame and so at most the size
    of the video memory: the test passes although two frames do not fit. *)
Lemma wrap_hw_cond fb :
  valid_geometry fb ->
  2 ^ 32 <= yres (var fb) * line_length (fix_info fb) * 2 ->
  hw_cond fb /\ smem_len (fix_info fb) < 2 * frame_bytes fb.
Proof.
  intros Hg Hw. unfold hw_cond. rewrite (valid_frame_bytes fb Hg).
  destruct Hg as (Hy & Hl & _ & Hfit & _).
  split; [| lia]. unfold umul, u32.
  replace (yres (var fb) * line_length (fix_info fb) * 2)
    with (yres (var fb) * line_length (fix_info fb) * 2 - 2 ^ 32 + 1 * 2 ^ 32)
    by lia.
  rewrite Z.mod_add by lia. rewrite Z.mod_small by lia. lia.
Qed.

Lemma strategy_hw k fb fbs :
  hw_cond fb ->
  fbdev_init_strategy (fix_info fb) (probed fb fbs k)
    = Ok (false, hw_chosen fb fbs k).
Proof.
  intros Hc. unfold hw_cond, frame_bytes in Hc.
  unfold fbdev_init_strategy. cbn.
  apply Z.leb_le in Hc. rewrite Hc. reflexivity.
Qed.

Lemma finish_hw_oob k fb fbs :
  vram_ok fb -> smem_len (fix_info fb) < 2 * frame_bytes fb ->
  fbdev_init_finish 0 (hw_chosen fb fbs k) = Fault OutOfBounds.
Proof.
  intros Hv Hfit. pose proof (frame_bytes_range fb) as Hr.
  unfold vram_ok in Hv. unfold frame_bytes in *.
  unfold fbdev_init_finish. cbn.
  unfold all_zero, frame_bytes. rewrite !length_replicate.
  rewrite in_range_false; [reflexivity | lia].
Qed.

(** What [fbdev_init] does where the product wraps: the probe succeeds,
    lines 114-121 set up the two hardware buffers, the second one starting
    at the end of the first and running beyond the end of the video memory,
    and line 139 clears it: that [memset] leaves the video memory. *)
Lemma fbdev_init_wrap k fb fbs :
  registered_fb k = fb :: fbs -> valid_geometry fb ->
  2 ^ 32 <= yres (var fb) * line_length (fix_info fb) * 2 ->
  hw_cond fb /\
  fbdev_init_probe k = Ok (Some (0%nat, fix_info fb), probed fb fbs k) /\
  fbdev_init_strategy (fix_info fb) (probed fb fbs k)
    = Ok (false, hw_chosen fb fbs k) /\
  fbdev_init_finish 0 (hw_chosen fb fbs k) = Fault OutOfBounds /\
  fbdev_init k = Fault OutOfBounds.
Proof.
  intros Hreg Hg Hw.
  destruct (wrap_hw_cond fb Hg Hw) as (Hc & Hfit2).
  pose proof (valid_vram_ok fb Hg) as Hv.
  pose proof (probe_ok k fb fbs Hreg Hv (valid_frame_fits fb Hg)) as Hp.
  pose proof (strategy_hw k fb fbs Hc) as Hs.
  pose proof (finish_hw_oob k fb fbs Hv Hfit2) as Hf.
  repeat (split; [assumption |]).
  unfold fbdev_init, bind. rewrite Hp.
  unfold fbdev_init_buffers, bind. rewrite Hs. exact Hf.
Qed.

Lemma panel_valid smem codes :
  16 <= smem < 2 ^ 32 -> valid_geometry (panel smem codes).
Proof.
  intros H. unfold valid_geometry, vram_ok, in_u32. cbn.
  rewrite length_replicate. lia.
Qed.

Lemma wide_panel_valid : valid_geometry wide_panel.
Proof.
  unfold valid_geometry, vram_ok, in_u32, wide_panel.
  cbn [yres var line_length fix_info bits_per_pixel smem_len vram].
  rewrite length_replicate. lia.
Qed.

Lemma wide_panel_wraps :
  2 ^ 32 <= yres (var wide_panel) * line_length (fix_info wide_panel) * 2.
Proof.
  unfold wide_panel. cbn [yres var line_length fix_info]. lia.
Qed.

(** Without room for two frames, and below 4 GiB, the test of line 114
    fails. *)
Lemma valid_not_hw_cond fb :
  valid_geometry fb ->
  smem_len (fix_info fb) < yres (var fb) * line_length (fix_info fb) * 2 < 2 ^ 32 ->
  ~ hw_cond fb.
Proof.
  intros Hg Hlt. unfold hw_cond. rewrite (valid_frame_bytes fb Hg).
  destruct Hg as (Hy & Hl & _ & Hfit & _).
  rewrite umul_small; [lia | unfold in_u32; nia].
Qed.

(** On the software path [fbdev_init] returns as soon as the allocator
    grants the descriptor: a surface, or NULL when it refuses the buffer. *)
Lemma fbdev_init_sw_returns k fb fbs j rest :
  registered_fb k = fb :: fbs -> valid_geometry fb -> ~ hw_cond fb ->
  kmalloc_plan k = Granted j :: rest ->
  exists r k', fbdev_init k = Ok (r, k') /\ double_buffered k' = false.
Proof.
  intros Hreg Hg Hn Hplan.
  rewrite (fbdev_init_after_probe k fb fbs Hreg (valid_vram_ok fb Hg)
             (valid_frame_fits fb Hg)).
  destruct rest as [| [| j2] rest'].
  - destruct (buffers_sw_no_data k fb fbs j [] Hn Hplan I) as (k' & Hrun & A).
    exists SNULL, k'. split; [exact Hrun | apply (nm_flag _ _ _ _ A)].
  - destruct (buffers_sw_no_data k fb fbs j (ENOMEM :: rest') Hn Hplan I)
      as (k' & Hrun & A).
    exists SNULL, k'. split; [exact Hrun | apply (nm_flag _ _ _ _ A)].
  - destruct (buffers_sw k fb fbs j j2 rest' Hn Hplan) as (k' & Hrun & A).
    eexists _, k'. split; [exact Hrun | apply (sw_flag _ _ _ _ A)].
Qed.

(** C1 (what the code does): line 114 computes [yres * line_length * 2] in
    32 bits.  For every valid geometry a call of [fbdev_init] that returns
    has set [double_buffered] exactly when that test passed, and then the
    two descriptors have the same geometry, buffer 1's data pointer is
    [height * row_bytes] bytes after buffer 0's, and buffer 1 is returned.
    Where two frames fit the test passes and the call returns buffer 1;
    where they do not fit and take less than 4 GiB the test fails and the
    call returns under the software strategy once the allocator grants the
    descriptor.  But for a frame of 2 GiB or more the product wraps around
    and the test passes although two frames do not fit: lines 115-121 select
    hardware double buffering with buffer 1 running beyond the end of the
    video memory, and the [memset] of line 139 leaves the video memory. *)
Theorem fbdev_init_double_buffering k fb fbs :
  registered_fb k = fb :: fbs -> valid_geometry fb ->
  (forall r k', fbdev_init k = Ok (r, k') ->
     (double_buffered k' = true <-> hw_cond fb) /\
     (double_buffered k' = true ->
      same_geometry (gr_framebuffer0 k') (gr_framebuffer1 k') /\
      data (gr_framebuffer1 k') =
        ptr_add (data (gr_framebuffer0 k'))
                (height (gr_framebuffer0 k') * row_bytes (gr_framebuffer0 k')) /\
      r = Static 1 /\ gr_draw k' = Static 1)) /\
  (yres (var fb) * line_length (fix_info fb) * 2 <= smem_len (fix_info fb) ->
   hw_cond fb /\
   exists k', fbdev_init k = Ok (Static 1, k') /\ double_buffered k' = true) /\
  (smem_len (fix_info fb) < yres (var fb) * line_length (fix_info fb) * 2 < 2 ^ 32 ->
   ~ hw_cond fb /\
   forall j rest, kmalloc_plan k = Granted j :: rest ->
     exists r k', fbdev_init k = Ok (r, k') /\ double_buffered k' = false) /\
  (2 ^ 32 <= yres (var fb) * line_length (fix_info fb) * 2 ->
   hw_cond fb /\
   exists kp ks v,
     fbdev_init_probe k = Ok (Some (0%nat, fix_info fb), kp) /\
     fbdev_init_strategy (fix_info fb) kp = Ok (false, ks) /\
     double_buffered ks = true /\ gr_draw ks = Static 1 /\
     data (gr_framebuffer1 ks)
       = Ptr (Vram 0) (yres (var fb) * line_length (fix_info fb)) /\
     region (Vram 0) ks = Some v /\
     Z.of_nat (length v)
       < yres (var fb) * line_length (fix_info fb)
         + height (gr_framebuffer1 ks) * row_bytes (gr_framebuffer1 ks) /\
     fbdev_init_finish 0 ks = Fault OutOfBounds /\
     fbdev_init k = Fault OutOfBounds).
Proof.
  intros Hreg Hg.
  pose proof (valid_frame_bytes fb Hg) as Hfb.
  pose proof (valid_vram_ok fb Hg) as Hv.
  split; [| split; [| split]].
  - intros r k' H.
    destruct (fbdev_init_cases k fb fbs r k' Hreg Hv H)
      as (_ & [(Hc & Hfit2 & -> & A) | [(Hc & _ & A) | (Hc & _ & A)]]).
    + destruct A as [Hflag H0 H1 Hdraw _ _ _ _]. split.
      * split; [intros _; exact Hc | intros _; exact Hflag].
      * intros _. rewrite H0, H1. unfold surface1, surface0, same_geometry. cbn.
        rewrite Hfb. auto.
    + rewrite (sw_flag _ _ _ _ A). split; [| discriminate].
      split; [discriminate | contradiction].
    + rewrite (nm_flag _ _ _ _ A). split; [| discriminate].
      split; [discriminate | contradiction].
  - intros He. split; [apply (valid_hw_cond fb Hg He) |].
    destruct (fbdev_init_hw k fb fbs Hreg Hg He) as (k' & Hrun & A).
    exists k'. split; [exact Hrun | apply (hw_flag _ _ _ _ A)].
  - intros Hlt. pose proof (valid_not_hw_cond fb Hg Hlt) as Hn.
    split; [exact Hn |]. intros j rest Hplan.
    exact (fbdev_init_sw_returns k fb fbs j rest Hreg Hg Hn Hplan).
  - intros Hw.
    destruct (fbdev_init_wrap k fb fbs Hreg Hg Hw) as (Hc & Hp & Hs & Hf & Hrun).
    split; [exact Hc |].
    exists (probed fb fbs k), (hw_chosen fb fbs k),
           (all_zero (length (vram fb))).
    split; [exact Hp |]. split; [exact Hs |].
    split; [reflexivity |]. split; [reflexivity |].
    split; [cbn; rewrite Hfb; reflexivity |].
    split; [reflexivity |].
    split; [| split; [exact Hf | exact Hrun]].
    unfold all_zero. rewrite length_replicate. cbn.
    unfold vram_ok in Hv. destruct Hg as (Hy & Hl & _ & Hfit & _). lia.
Qed.

Lemma fbdev_init_double_buffering_witness :
  fbdev_init wide_boot = Fault OutOfBounds /\
  (exists k', fbdev_init hw_boot = Ok (Static 1, k') /\
              double_buffered k' = true) /\
  (exists r k', fbdev_init sw_boot = Ok (r, k') /\ double_buffered k' = false).
Proof.
  split; [| split].
  - destruct (fbdev_init_double_buffering wide_boot wide_panel [] eq_refl
                wide_panel_valid) as (_ & _ & _ & Hwrap).
    destruct (Hwrap wide_panel_wraps)
      as (_ & kp & ks & v & _ & _ & _ & _ & _ & _ & _ & _ & Hrun).
    exact Hrun.
  - destruct (fbdev_init_double_buffering hw_boot (panel 32 []) [] eq_refl)
      as (_ & Hfit & _).
    + apply panel_valid. lia.
    + apply Hfit. vm_compute. discriminate.
  - destruct (fbdev_init_double_buffering sw_boot (panel 20 []) [] eq_refl)
      as (_ & _ & Hsw & _).
    + apply panel_valid. lia.
    + apply (proj2 (Hsw ltac:(vm_compute; split; reflexivity)) stale [Granted stale]).
      reflexivity.
Defined.

(** ** [fbdev_flip] with two hardware buffers *)

Lemma swapped_facts n i fb k :
  registered_fb k !! i = Some fb ->
  gr_draw (swapped n i fb k) = gr_draw k /\
  displayed_buffer (swapped n i fb k) = n /\
  double_buffered (swapped n i fb k) = double_buffered k /\
  fbi (swapped n i fb k) = fbi k /\
  gr_framebuffer0 (swapped n i fb k) = gr_framebuffer0 k /\
  gr_framebuffer1 (swapped n i fb k) = gr_framebuffer1 k /\
  kheap (swapped n i fb k) = kheap k /\
  vi (swapped n i fb k) = swap_var n k /\
  registered_fb (swapped n i fb k) !! i
    = Some (fb_request (FBIOPUT_VSCREENINFO (swap_var n k)) fb).2 /\
  klog (swapped n i fb k)
    = klog k ++ errors_if_negative (next_reply fb) "active fb swap failed".
Proof.
  intros Hfb. unfold swapped, requested. cbn.
  repeat (split; [reflexivity |]). split; [| reflexivity].
  apply list_lookup_insert_eq. exact (lookup_lt_Some _ _ _ Hfb).
Qed.

Lemma usub_complement d : d = 0 \/ d = 1 -> usub 1 d = 1 - d.
Proof. intros [-> | ->]; reflexivity. Qed.

Lemma fbdev_flip_hw_run mode i fb k :
  hw_ready i fb k ->
  fbdev_flip mode k =
    Ok (Static (displayed_buffer k),
        swapped (1 - displayed_buffer k) i fb
          (set_gr_draw (Static (displayed_buffer k)) k)).
Proof.
  intros [Hflag Hd Hi Hfb]. unfold fbdev_flip. cbn. rewrite Hflag. cbn.
  rewrite (usub_complement _ Hd).
  erewrite set_displayed_framebuffer_run;
    [| exact Hflag | lia | exact Hi | exact Hfb].
  cbn. reflexivity.
Qed.

Lemma fbdev_flip_hw_ready mode i fb k r k' :
  hw_ready i fb k -> fbdev_flip mode k = Ok (r, k') ->
  exists fb', hw_ready i fb' k'.
Proof.
  intros Hr H. rewrite (fbdev_flip_hw_run mode i fb k Hr) in H.
  injection H as <- <-. destruct Hr as [Hflag Hd Hi Hfb].
  eexists. split.
  - exact Hflag.
  - cbn. lia.
  - exact Hi.
  - cbn. apply list_lookup_insert_eq. exact (lookup_lt_Some _ _ _ Hfb).
Qed.

Lemma hw_running_init k fb fbs r k0 :
  registered_fb k = fb :: fbs -> vram_ok fb ->
  fbdev_init k = Ok (r, k0) -> double_buffered k0 = true ->
  hw_running fb k0 /\ displayed_buffer k0 = 0 /\
  2 * frame_bytes fb <= smem_len (fix_info fb).
Proof.
  intros Hreg Hv H Hdb.
  destruct (fbdev_init_cases k fb fbs r k0 Hreg Hv H)
    as (_ & [(Hc & Hfit2 & _ & A) | [(_ & _ & A) | (_ & _ & A)]]).
  - destruct A as [Hflag H0 _ _ Hd Hi _ (fb' & Hdev & _)].
    split; [| split; [exact Hd | exact Hfit2]].
    split; [| exact H0]. exists fb'. split.
    + exact Hflag.
    + left. exact Hd.
    + exact Hi.
    + rewrite Hdev. reflexivity.
  - rewrite (sw_flag _ _ _ _ A) in Hdb. discriminate.
  - rewrite (nm_flag _ _ _ _ A) in Hdb. discriminate.
Qed.

Lemma hw_running_flipped mode fb k0 k1 :
  hw_running fb k0 -> flipped mode k0 k1 -> hw_running fb k1.
Proof.
  intros H0 Hf. induction Hf as [k | k k1 k2 r _ IH Hflip].
  - exact H0.
  - destruct (IH H0) as ((dev & Hr) & Hfb0).
    split; [apply (fbdev_flip_hw_ready mode 0%nat dev k1 r k2 Hr Hflip) |].
    rewrite (fbdev_flip_hw_run mode 0%nat dev k1 Hr) in Hflip.
    injection Hflip as _ <-. exact Hfb0.
Qed.

Lemma fbdev_flip_hw_step mode fb k1 :
  valid_geometry fb -> 2 * frame_bytes fb <= smem_len (fix_info fb) ->
  hw_running fb k1 ->
  (displayed_buffer k1 = 0 \/ displayed_buffer k1 = 1) /\
  exists k2 dev,
    fbdev_flip mode k1 = Ok (Static (displayed_buffer k1), k2) /\
    gr_draw k2 = Static (displayed_buffer k1) /\
    displayed_buffer k2 = 1 - displayed_buffer k1 /\
    registered_fb k2 !! 0%nat = Some dev /\
    last (issued dev) = Some (FBIOPUT_VSCREENINFO (vi k2)) /\
    yres_virtual (vi k2) = 2 * height (gr_framebuffer0 k1) /\
    yoffset (vi k2) = (1 - displayed_buffer k1) * height (gr_framebuffer0 k1) /\
    bits_per_pixel (vi k2) = pixel_bytes (gr_framebuffer0 k1) * 8 /\
    hw_running fb k2.
Proof.
  intros Hg Hfit2 ((dev & Hr) & Hfb0).
  pose proof (valid_frame_bytes fb Hg) as Hfb.
  destruct Hg as (Hy & Hl & Hbpp & Hfit & _).
  pose proof (fbdev_flip_hw_run mode 0%nat dev k1 Hr) as Hrun.
  destruct (fbdev_flip_hw_ready mode 0%nat dev k1 _ _ Hr Hrun) as (dev' & Hr').
  destruct Hr as [Hflag Hd Hi Hdev].
  split; [exact Hd |].
  eexists. exists (fb_request (FBIOPUT_VSCREENINFO
                     (swap_var (1 - displayed_buffer k1)
                        (set_gr_draw (Static (displayed_buffer k1)) k1))) dev).2.
  split; [exact Hrun |].
  split; [reflexivity |]. split; [reflexivity |].
  split; [cbn; apply list_lookup_insert_eq; exact (lookup_lt_Some _ _ _ Hdev) |].
  split; [rewrite fb_request_issued; apply last_snoc |].
  cbn. rewrite Hfb0. cbn.
  split; [rewrite umul_small; [lia | unfold in_u32; nia] |].
  split; [rewrite umul_small; [lia | unfold in_u32; destruct Hd as [-> | ->]; nia] |].
  split.
  - rewrite umul_small; [lia |]. unfold in_u32 in *.
    pose proof (Z.mul_div_le (bits_per_pixel (var fb)) 8).
    pose proof (Z.div_pos (bits_per_pixel (var fb)) 8). lia.
  - split; [exists dev'; exact Hr' | exact Hfb0].
Qed.

(** C2: under the hardware strategy, after a successful [fbdev_init] (the
    displayed index is 0 then) and any number of flips, the next flip sets
    and returns as draw surface the buffer at the displayed index, sends the
    device a FBIOPUT_VSCREENINFO with virtual vertical resolution
    [2 * height], vertical offset [(1 - displayed) * height] and
    [pixel_bytes * 8] bits per pixel, and makes the displayed index its
    complement; the flip after that returns the other buffer and brings the
    displayed index back. *)
Theorem fbdev_flip_alternates mode k fb fbs r k0 k1 :
  registered_fb k = fb :: fbs -> valid_geometry fb ->
  fbdev_init k = Ok (r, k0) -> double_buffered k0 = true ->
  flipped mode k0 k1 ->
  displayed_buffer k0 = 0 /\
  (displayed_buffer k1 = 0 \/ displayed_buffer k1 = 1) /\
  exists k2 dev,
    fbdev_flip mode k1 = Ok (Static (displayed_buffer k1), k2) /\
    gr_draw k2 = Static (displayed_buffer k1) /\
    displayed_buffer k2 = 1 - displayed_buffer k1 /\
    registered_fb k2 !! 0%nat = Some dev /\
    last (issued dev) = Some (FBIOPUT_VSCREENINFO (vi k2)) /\
    yres_virtual (vi k2) = 2 * height (gr_framebuffer0 k1) /\
    yoffset (vi k2) = (1 - displayed_buffer k1) * height (gr_framebuffer0 k1) /\
    bits_per_pixel (vi k2) = pixel_bytes (gr_framebuffer0 k1) * 8 /\
    exists k3,
      fbdev_flip mode k2 = Ok (Static (1 - displayed_buffer k1), k3) /\
      gr_draw k3 = Static (1 - displayed_buffer k1) /\
      displayed_buffer k3 = displayed_buffer k1.
Proof.
  intros Hreg Hg Hinit Hdb Hflips.
  destruct (hw_running_init k fb fbs r k0 Hreg (valid_vram_ok fb Hg) Hinit Hdb)
    as (Hrun0 & Hd0 & Hfit2).
  split; [exact Hd0 |].
  pose proof (hw_running_flipped mode fb k0 k1 Hrun0 Hflips) as Hrun1.
  destruct (fbdev_flip_hw_step mode fb k1 Hg Hfit2 Hrun1)
    as (Hd & k2 & dev & Hflip & Hdraw & Hd2 & Hdev & Hlast & Hv & Ho & Hb & Hrun2).
  split; [exact Hd |].
  exists k2, dev. repeat (split; [assumption |]).
  destruct (fbdev_flip_hw_step mode fb k2 Hg Hfit2 Hrun2)
    as (_ & k3 & _ & Hflip3 & Hdraw3 & Hd3 & _).
  exists k3. rewrite Hd2 in Hflip3, Hdraw3, Hd3.
  split; [exact Hflip3 |]. split; [exact Hdraw3 |]. lia.
Qed.

Lemma fbdev_flip_alternates_witness :
  exists k2 k3,
    fbdev_flip false hw_flipped = Ok (Static 1, k2) /\
    fbdev_flip false k2 = Ok (Static 0, k3) /\
    displayed_buffer k3 = 1.
Proof.
  destruct (fbdev_flip_alternates false hw_boot (panel 32 []) [] (Static 1)
              hw_inited hw_flipped)
    as (_ & _ & k2 & _ & H2 & _ & _ & _ & _ & _ & _ & _ & k3 & H3 & _ & Hd).
  - reflexivity.
  - apply panel_valid. lia.
  - vm_compute. reflexivity.
  - vm_compute. reflexivity.
  - apply (flipped_more false hw_inited hw_inited hw_flipped (Static 0)).
    + apply flipped_none.
    + vm_compute. reflexivity.
  - exists k2, k3. split; [exact H2 |]. split; [exact H3 | exact Hd].
Defined.

(** ** What [fbdev_init] clears *)

Lemma surface_bytes_hw fb fbs k k' :
  valid_geometry fb -> 2 * frame_bytes fb <= smem_len (fix_info fb) ->
  after_init_hw fb fbs k k' ->
  read_surface (Static 1) k' = Ok (surface1 fb, k') /\
  surface_bytes (Static 1) k'
    = Some (all_zero (Z.to_nat (height (surface1 fb) * row_bytes (surface1 fb)))).
Proof.
  intros Hg Hfit2 [_ _ H1 _ _ _ _ (fb' & Hdev & Hvram & _)].
  pose proof (valid_frame_bytes fb Hg) as Hfb.
  pose proof (frame_bytes_range fb) as Hr.
  pose proof (valid_vram_ok fb Hg) as Hv. unfold vram_ok in Hv.
  assert (read_surface (Static 1) k' = Ok (surface1 fb, k')) as Hread
    by (cbn; rewrite H1; reflexivity).
  split; [exact Hread |].
  unfold surface_bytes. rewrite Hread. cbn. rewrite Hdev. cbn.
  rewrite Hvram. rewrite <- Hfb. unfold all_zero.
  rewrite length_replicate.
  rewrite in_range_true; [| lia ..].
  rewrite slice_replicate; [reflexivity | lia].
Qed.

Lemma surface_bytes_sw fb fbs k k' :
  valid_geometry fb ->
  after_init_sw fb fbs k k' ->
  read_surface (Heap (length (kheap k))) k'
    = Ok (set_data (Ptr (Kmem (S (length (kheap k)))) 0) (surface0 fb), k') /\
  surface_bytes (Heap (length (kheap k))) k'
    = Some (all_zero (Z.to_nat (height (surface0 fb) * row_bytes (surface0 fb)))).
Proof.
  intros Hg [_ _ _ _ Hheap _].
  pose proof (valid_frame_bytes fb Hg) as Hfb.
  pose proof (frame_bytes_range fb) as Hr.
  assert (read_surface (Heap (length (kheap k))) k'
          = Ok (set_data (Ptr (Kmem (S (length (kheap k)))) 0) (surface0 fb), k'))
    as Hread.
  { unfold read_surface. rewrite Hheap, lookup_snoc2. reflexivity. }
  split; [exact Hread |].
  unfold surface_bytes. rewrite Hread. cbn [data set_data height row_bytes surface0].
  rewrite <- Hfb.
  rewrite (load_run (Kmem (S (length (kheap k)))) 0 _
             (all_zero (Z.to_nat (frame_bytes fb))));
    [| cbn; rewrite Hheap, lookup_snoc2_last; reflexivity | lia | lia
     | unfold all_zero; rewrite length_replicate; lia].
  unfold all_zero. rewrite slice_replicate; [reflexivity | lia].
Qed.

Lemma probed_vram fb fbs k :
  vram_ok fb ->
  region (Vram 0) (probed fb fbs k)
    = Some (all_zero (Z.to_nat (smem_len (fix_info fb)))).
Proof.
  intros Hv. unfold vram_ok in Hv. cbn. rewrite <- Hv, Nat2Z.id. reflexivity.
Qed.

(** C3: after every successful [fbdev_init], under either strategy, the
    bytes behind the returned draw surface are all zero over its full
    [height * row_bytes] extent; the device memory was zero-filled over its
    [smem_len] bytes by the part of [fbdev_init] that runs before the
    strategy is chosen, and is still all zero when [fbdev_init] returns. *)
Theorem fbdev_init_clears k fb fbs r k' :
  registered_fb k = fb :: fbs -> valid_geometry fb ->
  fbdev_init k = Ok (r, k') -> r <> SNULL ->
  (exists s,
     read_surface r k' = Ok (s, k') /\
     surface_bytes r k' = Some (all_zero (Z.to_nat (height s * row_bytes s)))) /\
  (exists kp,
     fbdev_init_probe k = Ok (Some (0%nat, fix_info fb), kp) /\
     region (Vram 0) kp = Some (all_zero (Z.to_nat (smem_len (fix_info fb)))) /\
     fbdev_init_buffers 0 (fix_info fb) kp = Ok (r, k')) /\
  region (Vram 0) k' = Some (all_zero (Z.to_nat (smem_len (fix_info fb)))).
Proof.
  intros Hreg Hg H Hr.
  pose proof (valid_vram_ok fb Hg) as Hv.
  pose proof (valid_frame_fits fb Hg) as Hfit.
  assert (forall fb', vram fb' = all_zero (length (vram fb)) ->
            Some (vram fb') = Some (all_zero (Z.to_nat (smem_len (fix_info fb)))))
    as Hz.
  { intros fb' ->. unfold vram_ok in Hv. rewrite <- Hv, Nat2Z.id. reflexivity. }
  split; [| split].
  - destruct (fbdev_init_cases k fb fbs r k' Hreg Hv H)
      as (_ & [(_ & Hfit2 & -> & A) | [(_ & -> & A) | (_ & -> & _)]]).
    + eexists. exact (surface_bytes_hw fb fbs k k' Hg Hfit2 A).
    + eexists. exact (surface_bytes_sw fb fbs k k' Hg A).
    + contradiction.
  - exists (probed fb fbs k).
    split; [exact (probe_ok k fb fbs Hreg Hv Hfit) |].
    split; [exact (probed_vram fb fbs k Hv) |].
    rewrite <- (fbdev_init_after_probe k fb fbs Hreg Hv Hfit). exact H.
  - destruct (fbdev_init_cases k fb fbs r k' Hreg Hv H)
      as (_ & [(_ & _ & _ & A) | [(_ & _ & A) | (_ & -> & _)]]).
    + destruct A as [_ _ _ _ _ _ _ (fb' & Hdev & Hvram & _)].
      cbn. rewrite Hdev. cbn. exact (Hz fb' Hvram).
    + destruct A as [_ _ _ _ _ (fb' & Hdev & Hvram & _)].
      cbn. rewrite Hdev. cbn. exact (Hz fb' Hvram).
    + contradiction.
Qed.

Lemma fbdev_init_clears_witness :
  surface_bytes (Heap 0) sw_inited = Some (all_zero 16) /\
  region (Vram 0) sw_inited = Some (all_zero 20).
Proof.
  destruct (fbdev_init_clears sw_boot (panel 20 []) [] (Heap 0) sw_inited)
    as ((s & Hs & Hb) & _ & Hv).
  - reflexivity.
  - apply panel_valid. lia.
  - vm_compute. reflexivity.
  - discriminate.
  - split; [| exact Hv].
    rewrite Hb. vm_compute in Hs. injection Hs as <-. reflexivity.
Defined.

(** ** [fbdev_init] without room for two buffers *)

Lemma fbdev_init_sw k fb fbs j1 j2 rest :
  registered_fb k = fb :: fbs -> valid_geometry fb ->
  smem_len (fix_info fb) < yres (var fb) * line_length (fix_info fb) * 2 < 2 ^ 32 ->
  kmalloc_plan k = Granted j1 :: Granted j2 :: rest ->
  exists k', fbdev_init k = Ok (Heap (length (kheap k)), k')
             /\ after_init_sw fb fbs k k'.
Proof.
  intros Hreg Hg Hlt Hplan.
  rewrite (fbdev_init_after_probe k fb fbs Hreg (valid_vram_ok fb Hg)
             (valid_frame_fits fb Hg)).
  apply (buffers_sw k fb fbs j1 j2 rest (valid_not_hw_cond fb Hg Hlt) Hplan).
Qed.

(** C7 (what the code does): take a valid geometry for which
    [yres * line_length * 2 <= smem_len] fails.  When two frames take less
    than 4 GiB, every [fbdev_init] that comes back has selected software
    buffering; a surface it returns has the geometry of buffer 0, and its
    storage is a kmalloc block that did not exist before the call, holds
    [height * row_bytes] bytes, and is no part of any video memory, where
    buffer 0 lies; and when the allocator grants both requests the call does
    come back with such a surface.  But when two frames take 4 GiB or more,
    the 32-bit product of line 114 wraps around and the test passes:
    [fbdev_init] selects hardware double buffering, allocates nothing and
    makes buffer 1 the draw surface, whose storage is video memory from the
    end of buffer 0 on and runs beyond the end of the video memory; the
    [memset] of line 139 leaves the video memory. *)
Theorem fbdev_init_shadow_buffer k fb fbs :
  registered_fb k = fb :: fbs -> valid_geometry fb ->
  ~ yres (var fb) * line_length (fix_info fb) * 2 <= smem_len (fix_info fb) ->
  (yres (var fb) * line_length (fix_info fb) * 2 < 2 ^ 32 ->
   (forall r k', fbdev_init k = Ok (r, k') ->
      double_buffered k' = false /\
      (r <> SNULL ->
       exists d b s bs,
         r = Heap d /\ gr_draw k' = Heap d /\
         read_surface r k' = Ok (s, k') /\
         same_geometry s (gr_framebuffer0 k') /\
         data s = Ptr (Kmem b) 0 /\
         kheap k !! b = None /\ kheap k !! d = None /\ b <> d /\
         kheap k' !! b = Some (Some (Buffer bs)) /\
         Z.of_nat (length bs) = height s * row_bytes s /\
         data (gr_framebuffer0 k') = Ptr (Vram 0) 0 /\
         (forall i off, data s <> Ptr (Vram i) off))) /\
   (forall j1 j2 rest, kmalloc_plan k = Granted j1 :: Granted j2 :: rest ->
      exists k', fbdev_init k = Ok (Heap (length (kheap k)), k') /\
                 double_buffered k' = false)) /\
  (2 ^ 32 <= yres (var fb) * line_length (fix_info fb) * 2 ->
   exists kp ks s v,
     fbdev_init_probe k = Ok (Some (0%nat, fix_info fb), kp) /\
     fbdev_init_strategy (fix_info fb) kp = Ok (false, ks) /\
     double_buffered ks = true /\
     kheap ks = kheap k /\ kmalloc_plan ks = kmalloc_plan k /\
     gr_draw ks = Static 1 /\
     read_surface (gr_draw ks) ks = Ok (s, ks) /\
     data s = Ptr (Vram 0) (yres (var fb) * line_length (fix_info fb)) /\
     region (Vram 0) ks = Some v /\
     Z.of_nat (length v)
       < yres (var fb) * line_length (fix_info fb) + height s * row_bytes s /\
     fbdev_init_finish 0 ks = Fault OutOfBounds /\
     fbdev_init k = Fault OutOfBounds).
Proof.
  intros Hreg Hg Hne.
  pose proof (valid_frame_bytes fb Hg) as Hfb.
  pose proof (frame_bytes_range fb) as Hr.
  pose proof (valid_vram_ok fb Hg) as Hv.
  split.
  - intros Hlt.
    assert (smem_len (fix_info fb)
            < yres (var fb) * line_length (fix_info fb) * 2 < 2 ^ 32) as Hin
      by lia.
    split.
    + intros r k' H.
      destruct (fbdev_init_cases k fb fbs r k' Hreg Hv H)
        as (_ & [(_ & Hfit2 & _ & _) | [(_ & -> & A) | (_ & -> & A)]]).
      * exfalso. apply Hne. lia.
      * pose proof (surface_bytes_sw fb fbs k k' Hg A) as (Hread & _).
        destruct A as [Hflag H0 Hdraw _ Hheap _].
        split; [exact Hflag |]. intros _.
        exists (length (kheap k)), (S (length (kheap k))),
               (set_data (Ptr (Kmem (S (length (kheap k)))) 0) (surface0 fb)),
               (all_zero (Z.to_nat (frame_bytes fb))).
        split; [reflexivity |]. split; [exact Hdraw |]. split; [exact Hread |].
        split; [rewrite H0; unfold same_geometry; cbn; auto |].
        split; [reflexivity |].
        split; [apply lookup_ge_None; lia |].
        split; [apply lookup_ge_None; lia |].
        split; [lia |].
        split; [rewrite Hheap; apply lookup_snoc2_last |].
        split; [unfold all_zero; rewrite length_replicate; cbn; lia |].
        split; [rewrite H0; reflexivity |].
        intros i off. cbn. discriminate.
      * split; [apply (nm_flag _ _ _ _ A) |]. intros Hnull. contradiction.
    + intros j1 j2 rest Hplan.
      destruct (fbdev_init_sw k fb fbs j1 j2 rest Hreg Hg Hin Hplan)
        as (k' & Hrun & A).
      exists k'. split; [exact Hrun | apply (sw_flag _ _ _ _ A)].
  - intros Hw.
    destruct (fbdev_init_wrap k fb fbs Hreg Hg Hw) as (Hc & Hp & Hs & Hf & Hrun).
    exists (probed fb fbs k), (hw_chosen fb fbs k), (surface1 fb),
           (all_zero (length (vram fb))).
    split; [exact Hp |]. split; [exact Hs |].
    repeat (split; [reflexivity |]).
    split; [cbn; rewrite Hfb; reflexivity |].
    split; [reflexivity |].
    split; [| split; [exact Hf | exact Hrun]].
    unfold all_zero. rewrite length_replicate. cbn.
    unfold vram_ok in Hv. destruct Hg as (Hy & Hl & _ & Hfit & _). lia.
Qed.

Lemma fbdev_init_shadow_buffer_witness :
  fbdev_init wide_boot = Fault OutOfBounds /\
  exists k', fbdev_init sw_boot = Ok (Heap 0, k') /\ double_buffered k' = false.
Proof.
  split.
  - destruct (fbdev_init_shadow_buffer wide_boot wide_panel [] eq_refl
                wide_panel_valid) as (_ & Hwrap).
    + pose proof wide_panel_wraps as Hw. unfold wide_panel in *.
      cbn [yres var line_length fix_info smem_len] in *. lia.
    + destruct (Hwrap wide_panel_wraps)
        as (kp & ks & s & v & _ & _ & _ & _ & _ & _ & _ & _ & _ & _ & _ & Hrun).
      exact Hrun.
  - destruct (fbdev_init_shadow_buffer sw_boot (panel 20 []) [] eq_refl)
      as (Hsw & _).
    + apply panel_valid. lia.
    + vm_compute. intros H. apply H. reflexivity.
    + apply (proj2 (Hsw ltac:(vm_compute; reflexivity)) stale stale []).
      reflexivity.
Defined.

(** ** [fbdev_init] when the shadow buffer cannot be allocated *)

Lemma fbdev_init_no_data k fb fbs j rest :
  registered_fb k = fb :: fbs -> valid_geometry fb ->
  smem_len (fix_info fb) < yres (var fb) * line_length (fix_info fb) * 2 < 2 ^ 32 ->
  kmalloc_plan k = Granted j :: rest -> refuses rest ->
  exists k', fbdev_init k = Ok (SNULL, k') /\ after_init_failed fb fbs k k'.
Proof.
  intros Hreg Hg Hlt Hplan Hrest.
  rewrite (fbdev_init_after_probe k fb fbs Hreg (valid_vram_ok fb Hg)
             (valid_frame_fits fb Hg)).
  apply (buffers_sw_no_data k fb fbs j rest (valid_not_hw_cond fb Hg Hlt)
           Hplan Hrest).
Qed.

Lemma failed_init_flip fb fbs k k' :
  after_init_failed fb fbs k k' -> fbdev_flip false k' = Fault NullDeref.
Proof.
  intros [Hflag _ Hdraw _ Hheap _ _].
  unfold fbdev_flip, bind, gets. rewrite Hflag, Hdraw.
  unfold read_surface. rewrite Hheap, lookup_snoc. reflexivity.
Qed.

Lemma failed_init_exit fb fbs k k' :
  after_init_failed fb fbs k k' ->
  fbdev_exit k' =
    Ok (tt, set_gr_draw SNULL (set_kheap (kheap k ++ [None]) k')).
Proof.
  intros [Hflag _ Hdraw _ Hheap _ _].
  unfold fbdev_exit, bind, gets. rewrite Hflag, Hdraw. cbn.
  rewrite Hheap, lookup_snoc. cbn.
  unfold release. rewrite Hheap, lookup_snoc, insert_snoc. reflexivity.
Qed.

(** C4 (what the code does): when the allocator grants the descriptor and
    refuses the shadow buffer's storage, [fbdev_init] returns NULL and its
    last log entry is the allocation error; but [gr_draw] is left pointing
    to the descriptor it allocated, a live block that did not exist before
    the call and whose data pointer is NULL.  The next [fbdev_flip] reads
    through that pointer, and only [fbdev_exit] frees the block. *)
Theorem fbdev_init_alloc_failure_leaves_descriptor k fb fbs j rest :
  registered_fb k = fb :: fbs -> valid_geometry fb ->
  smem_len (fix_info fb) < yres (var fb) * line_length (fix_info fb) * 2 < 2 ^ 32 ->
  kmalloc_plan k = Granted j :: rest -> refuses rest ->
  exists k',
    fbdev_init k = Ok (SNULL, k') /\
    last (klog k') = Some (KERN_ERR "failed to allocate in-memory surface") /\
    gr_draw k' = Heap (length (kheap k)) /\
    kheap k !! length (kheap k) = None /\
    kheap k' !! length (kheap k)
      = Some (Some (Descriptor (Some (set_data NULL (gr_framebuffer0 k'))))) /\
    fbdev_flip false k' = Fault NullDeref /\
    exists k'', fbdev_exit k' = Ok (tt, k'') /\
                kheap k'' !! length (kheap k) = Some None.
Proof.
  intros Hreg Hg Hlt Hplan Hrest.
  destruct (fbdev_init_no_data k fb fbs j rest Hreg Hg Hlt Hplan Hrest)
    as (k' & Hrun & A).
  exists k'. split; [exact Hrun |].
  split.
  { rewrite (nm_log _ _ _ _ A).
    change [fb0_report fb; alloc_failed_msg]
      with ([fb0_report fb] ++ [alloc_failed_msg]).
    rewrite (assoc_L (++)). apply last_snoc. }
  split; [apply (nm_draw _ _ _ _ A) |].
  split; [apply lookup_ge_None; lia |].
  split.
  { rewrite (nm_heap _ _ _ _ A), (nm_fb0 _ _ _ _ A). apply lookup_snoc. }
  split; [exact (failed_init_flip fb fbs k k' A) |].
  eexists. split; [exact (failed_init_exit fb fbs k k' A) |].
  cbn. apply lookup_snoc.
Qed.

Lemma fbdev_init_alloc_failure_leaves_descriptor_witness :
  exists k',
    fbdev_init (boot [panel 20 []] [Granted stale; ENOMEM]) = Ok (SNULL, k') /\
    gr_draw k' = Heap 0 /\
    fbdev_flip false k' = Fault NullDeref.
Proof.
  destruct (fbdev_init_alloc_failure_leaves_descriptor
              (boot [panel 20 []] [Granted stale; ENOMEM]) (panel 20 []) []
              stale [ENOMEM])
    as (k' & Hrun & _ & Hdraw & _ & _ & Hflip & _).
  - reflexivity.
  - apply panel_valid. lia.
  - vm_compute. split; reflexivity.
  - reflexivity.
  - exact I.
  - exists k'. split; [exact Hrun |]. split; [exact Hdraw | exact Hflip].
Defined.

(** ** Writing to video memory *)

Lemma fmap_erase_alter (v : list byte) (i : nat) (l : list fb_info) :
  set_vram [] <$> alter (set_vram v) i l = set_vram [] <$> l.
Proof.
  revert i. induction l as [| fb l IH]; intros [| i]; cbn; f_equal; auto.
Qed.

Lemma alter_vram_twice (v1 v2 : list byte) (i : nat) (l : list fb_info) :
  alter (set_vram v2) i (alter (set_vram v1) i l) = alter (set_vram v2) i l.
Proof.
  revert i. induction l as [| fb l IH]; intros [| i]; cbn; f_equal; auto.
Qed.

Lemma erase_set_region i v k :
  erase_vram (set_region (Vram i) v k) = erase_vram k.
Proof.
  unfold erase_vram, set_region. cbn. rewrite fmap_erase_alter. reflexivity.
Qed.

Lemma set_region_twice i v1 v2 k :
  set_region (Vram i) v2 (set_region (Vram i) v1 k) = set_region (Vram i) v2 k.
Proof.
  unfold set_region. cbn. rewrite alter_vram_twice. reflexivity.
Qed.

Lemma region_set_region i v fb k :
  registered_fb k !! i = Some fb ->
  region (Vram i) (set_region (Vram i) v k) = Some v.
Proof.
  intros H. cbn. rewrite list_lookup_alter_eq, H. reflexivity.
Qed.

Lemma lookup_set_region i v fb k :
  registered_fb k !! i = Some fb ->
  registered_fb (set_region (Vram i) v k) !! i = Some (set_vram v fb).
Proof.
  intros H. cbn. rewrite list_lookup_alter_eq, H. reflexivity.
Qed.

Lemma erase_vram_heap k k' : erase_vram k' = erase_vram k -> kheap k' = kheap k.
Proof. intros H. apply (f_equal kheap) in H. exact H. Qed.

Lemma erase_vram_draw k k' : erase_vram k' = erase_vram k -> gr_draw k' = gr_draw k.
Proof. intros H. apply (f_equal gr_draw) in H. exact H. Qed.

Lemma erase_vram_log k k' : erase_vram k' = erase_vram k -> klog k' = klog k.
Proof. intros H. apply (f_equal klog) in H. exact H. Qed.

Lemma store_run b off new bs k :
  region b k = Some bs -> 0 <= off ->
  off + Z.of_nat (length new) <= Z.of_nat (length bs) ->
  store (Ptr b off) new k = Ok (tt, set_region b (splice bs (Z.to_nat off) new) k).
Proof.
  intros Hr H1 H3. unfold store. rewrite Hr.
  rewrite in_range_true; [reflexivity | lia ..].
Qed.

Lemma bind_inv {A B} (c : M A) (f : A -> M B) k r :
  bind c f k = Ok r -> exists a k1, c k = Ok (a, k1) /\ f a k1 = Ok r.
Proof.
  unfold bind. destruct (c k) as [[a k1] | e]; [| discriminate].
  intros H. exists a, k1. auto.
Qed.

Lemma load_frame p n k bs k' : load p n k = Ok (bs, k') -> k' = k.
Proof.
  unfold load. destruct p as [| b off]; [discriminate |].
  destruct (readable b k); [| discriminate].
  destruct (in_range _ _ _); [| discriminate].
  intros H. injection H as _ <-. reflexivity.
Qed.

Lemma load_byte_frame p i k x k' : load_byte p i k = Ok (x, k') -> k' = k.
Proof.
  unfold load_byte. intros H.
  apply bind_inv in H as (bs & k1 & Hl & H).
  apply load_frame in Hl as ->.
  destruct bs as [| y [| z bs]]; cbn in H; try discriminate.
  injection H as _ <-. reflexivity.
Qed.

Lemma store_frame i off new k u k' :
  store (Ptr (Vram i) off) new k = Ok (u, k') -> erase_vram k' = erase_vram k.
Proof.
  unfold store. destruct (region (Vram i) k); [| discriminate].
  destruct (in_range _ _ _); [| discriminate].
  intros H. injection H as _ <-. apply erase_set_region.
Qed.

Lemma bgra_loop_frame fuel i off buf ext idx k u k' :
  bgra_loop fuel (Ptr (Vram i) off) buf ext idx k = Ok (u, k') ->
  erase_vram k' = erase_vram k.
Proof.
  revert idx k. induction fuel as [| fuel IH]; intros idx k; cbn -[load_byte].
  - destruct (idx <? ext); [discriminate |].
    intros H. injection H as _ <-. reflexivity.
  - destruct (idx <? ext).
    2: { intros H. injection H as _ <-. reflexivity. }
    intros H.
    apply bind_inv in H as (b2 & k1 & L2 & H). apply load_byte_frame in L2 as ->.
    apply bind_inv in H as (? & k2 & S0 & H). apply store_frame in S0.
    apply bind_inv in H as (b1 & k3 & L1 & H). apply load_byte_frame in L1 as ->.
    apply bind_inv in H as (? & k4 & S1 & H). apply store_frame in S1.
    apply bind_inv in H as (b0 & k5 & L0 & H). apply load_byte_frame in L0 as ->.
    apply bind_inv in H as (? & k6 & S2 & H). apply store_frame in S2.
    apply bind_inv in H as (b3 & k7 & L3 & H). apply load_byte_frame in L3 as ->.
    apply bind_inv in H as (? & k8 & S3 & H). apply store_frame in S3.
    apply IH in H. congruence.
Qed.

Lemma alter_vram_same (i : nat) (l : list fb_info) (fb : fb_info) :
  l !! i = Some fb -> alter (set_vram (vram fb)) i l = l.
Proof.
  revert i. induction l as [| x l IH]; intros [| i] H; cbn in *.
  - discriminate.
  - discriminate.
  - injection H as ->. destruct fb. reflexivity.
  - f_equal. apply IH. exact H.
Qed.

Lemma set_region_same i fb k :
  registered_fb k !! i = Some fb -> set_region (Vram i) (vram fb) k = k.
Proof.
  intros H. unfold set_region. rewrite (alter_vram_same i _ fb H).
  destruct k. reflexivity.
Qed.

Lemma heap_load_byte b bs (n : nat) x j v k0 :
  kheap k0 !! b = Some (Some (Buffer bs)) -> bs !! n = Some x ->
  j = Z.of_nat n ->
  load_byte (Ptr (Kmem b) 0) j (set_region (Vram 0) v k0)
    = Ok (x, set_region (Vram 0) v k0).
Proof.
  intros Hb Hx ->. unfold load_byte, bind. cbn [ptr_add].
  pose proof (lookup_lt_Some _ _ _ Hx) as Hlt.
  rewrite (load_run (Kmem b) (0 + Z.of_nat n) 1 bs); [| cbn; rewrite Hb; reflexivity | lia ..].
  replace (Z.to_nat (0 + Z.of_nat n)) with n by lia.
  change (Z.to_nat 1) with 1%nat.
  rewrite (slice_singleton bs n x Hx). reflexivity.
Qed.

Lemma vram_store_byte fb (n : nat) x j v k0 :
  registered_fb k0 !! 0%nat = Some fb -> (n < length v)%nat ->
  j = Z.of_nat n ->
  store_byte (Ptr (Vram 0) 0) j x (set_region (Vram 0) v k0)
    = Ok (tt, set_region (Vram 0) (<[n := x]> v) k0).
Proof.
  intros Hfb Hlt ->. unfold store_byte. cbn [ptr_add].
  rewrite (store_run (Vram 0) (0 + Z.of_nat n) [x] v);
    [| apply (region_set_region 0 v fb k0 Hfb) | lia | cbn; lia].
  replace (Z.to_nat (0 + Z.of_nat n)) with n by lia.
  rewrite set_region_twice, splice_singleton by lia. reflexivity.
Qed.

Lemma bgra_loop_run fb b k0 ps :
  registered_fb k0 !! 0%nat = Some fb ->
  forall fuel done pre rest,
    kheap k0 !! b = Some (Some (Buffer (done ++ flat_map rgba ps))) ->
    length pre = length done ->
    (4 * length ps <= length rest)%nat ->
    Z.of_nat (length done) + 4 * Z.of_nat (length ps) < 2 ^ 32 ->
    (length ps <= fuel)%nat ->
    bgra_loop fuel (Ptr (Vram 0) 0) (Ptr (Kmem b) 0)
      (Z.of_nat (length done) + 4 * Z.of_nat (length ps))
      (Z.of_nat (length done))
      (set_region (Vram 0) (pre ++ rest) k0)
    = Ok (tt, set_region (Vram 0)
                (pre ++ flat_map bgra ps ++ drop (4 * length ps) rest) k0).
Proof.
  intros Hfb. induction ps as [| [[[r g] bl] a] ps IH];
    intros fuel done pre rest Hbuf Hlen Hrest Hext Hfuel.
  - cbn [length]. replace (Z.of_nat (length done) + 4 * Z.of_nat 0)
      with (Z.of_nat (length done)) by lia.
    destruct fuel; cbn; rewrite Z.ltb_irrefl; reflexivity.
  - destruct fuel as [| fuel]; [cbn in Hfuel; lia |].
    destruct rest as [| v0 [| v1 [| v2 [| v3 rest]]]]; cbn in Hrest; try lia.
    cbn [length flat_map rgba bgra] in *.
    cbn [bgra_loop].
    replace (Z.of_nat (length done) <?
             Z.of_nat (length done) + 4 * Z.of_nat (S (length ps)))
      with true by (symmetry; apply Z.ltb_lt; lia).
    rewrite !uadd_small by (unfold in_u32; lia).
    assert (length (pre ++ v0 :: v1 :: v2 :: v3 :: rest)
            = (length pre + 4 + length rest)%nat) as Hl
      by (rewrite length_app; cbn; lia).
    unfold bind.
    erewrite (heap_load_byte b _ (length done + 2) bl);
      [| exact Hbuf | rewrite lookup_app_r by lia;
                      replace (length done + 2 - length done)%nat with 2%nat by lia;
                      reflexivity | lia].
    rewrite (vram_store_byte fb (length pre + 0));
      [| exact Hfb | lia | lia].
    rewrite insert_app_r. cbn [insert list_insert].
    erewrite (heap_load_byte b _ (length done + 1) g);
      [| exact Hbuf | rewrite lookup_app_r by lia;
                      replace (length done + 1 - length done)%nat with 1%nat by lia;
                      reflexivity | lia].
    rewrite (vram_store_byte fb (length pre + 1));
      [| exact Hfb | rewrite length_app; cbn; lia | lia].
    rewrite insert_app_r. cbn [insert list_insert].
    erewrite (heap_load_byte b _ (length done + 0) r);
      [| exact Hbuf | rewrite lookup_app_r by lia;
                      replace (length done + 0 - length done)%nat with 0%nat by lia;
                      reflexivity | lia].
    rewrite (vram_store_byte fb (length pre + 2));
      [| exact Hfb | rewrite length_app; cbn; lia | lia].
    rewrite insert_app_r. cbn [insert list_insert].
    erewrite (heap_load_byte b _ (length done + 3) a);
      [| exact Hbuf | rewrite lookup_app_r by lia;
                      replace (length done + 3 - length done)%nat with 3%nat by lia;
                      reflexivity | lia].
    rewrite (vram_store_byte fb (length pre + 3));
      [| exact Hfb | rewrite length_app; cbn; lia | lia].
    rewrite insert_app_r. cbn [insert list_insert].
    specialize (IH fuel (done ++ [r; g; bl; a]) (pre ++ [bl; g; r; a]) rest).
    rewrite !length_app in IH. cbn [length] in IH.
    replace (Z.of_nat (length done + 4) + 4 * Z.of_nat (length ps))
      with (Z.of_nat (length done) + 4 * Z.of_nat (S (length ps))) in IH by lia.
    replace (Z.of_nat (length done) + 4) with (Z.of_nat (length done + 4)) by lia.
    rewrite <- !(assoc_L (++)) in IH. cbn [app] in IH.
    rewrite IH; [| exact Hbuf | lia | lia | lia | lia].
    do 3 f_equal.
    replace (4 * S (length ps))%nat with (S (S (S (S (4 * length ps))))) by lia.
    reflexivity.
Qed.

(** ** [fbdev_flip] with a shadow buffer *)

Lemma sw_extent d b s bs fb k :
  sw_ready d b s bs fb k ->
  umul (height s) (row_bytes s) = height s * row_bytes s /\
  Z.to_nat (height s * row_bytes s) = length bs.
Proof.
  intros H. pose proof (sr_len _ _ _ _ _ _ H). pose proof (sr_u32 _ _ _ _ _ _ H).
  split; [apply umul_small; unfold in_u32; lia | lia].
Qed.

Lemma rgba_length ps : length (flat_map rgba ps) = (4 * length ps)%nat.
Proof.
  induction ps as [| [[[r g] b] a] ps IH]; [reflexivity |].
  cbn [flat_map rgba length app]. rewrite IH. lia.
Qed.

Lemma bgra_length ps : length (flat_map bgra ps) = (4 * length ps)%nat.
Proof.
  induction ps as [| [[[r g] b] a] ps IH]; [reflexivity |].
  cbn [flat_map bgra length app]. rewrite IH. lia.
Qed.

Lemma gr_draw_set_region b v k : gr_draw (set_region b v k) = gr_draw k.
Proof. destruct b; reflexivity. Qed.

Lemma fbdev_flip_direct_run d b s bs fb k :
  sw_ready d b s bs fb k ->
  fbdev_flip false k
    = Ok (Heap d, set_region (Vram 0) (bs ++ drop (length bs) (vram fb)) k).
Proof.
  intros H. destruct (sw_extent _ _ _ _ _ _ H) as (Hu & Hn).
  destruct H as [Hflag Hdraw Hdesc Hdata Hbytes Hlen Hu32 Hfb0 Hdev Hfit].
  unfold fbdev_flip, bind, gets. rewrite Hflag, Hdraw.
  unfold read_surface. rewrite Hdesc, Hfb0, Hdata, Hu.
  unfold memcpy, bind.
  rewrite (load_run (Kmem b) 0 _ bs); [| cbn; rewrite Hbytes; reflexivity | lia ..].
  cbn [overlapping].
  rewrite Hn. change (Z.to_nat 0) with 0%nat. rewrite slice_all.
  rewrite (store_run (Vram 0) 0 bs (vram fb));
    [| cbn; rewrite Hdev; reflexivity | lia ..].
  change (Z.to_nat 0) with 0%nat.
  rewrite splice_front, gr_draw_set_region, Hdraw. reflexivity.
Qed.

Lemma fbdev_flip_bgra_run d b s ps fb k :
  sw_ready d b s (flat_map rgba ps) fb k ->
  fbdev_flip true k
    = Ok (Heap d,
          set_region (Vram 0)
            (flat_map bgra ps ++ drop (4 * length ps) (vram fb)) k).
Proof.
  intros H. destruct (sw_extent _ _ _ _ _ _ H) as (Hu & Hn).
  destruct H as [Hflag Hdraw Hdesc Hdata Hbytes Hlen Hu32 Hfb0 Hdev Hfit].
  rewrite rgba_length in Hlen, Hn.
  unfold fbdev_flip, bind, gets. rewrite Hflag, Hdraw.
  unfold read_surface. rewrite Hdesc, Hfb0, Hdata, Hu.
  pose proof (bgra_loop_run fb b k ps Hdev
                (Z.to_nat (height s * row_bytes s / 4 + 1)) [] [] (vram fb))
    as Hloop.
  cbn [length app] in Hloop.
  rewrite (set_region_same 0 fb k Hdev) in Hloop.
  replace (Z.of_nat 0 + 4 * Z.of_nat (length ps))
    with (height s * row_bytes s) in Hloop by lia.
  change (Z.of_nat 0) with 0 in Hloop.
  rewrite Hloop;
    [rewrite gr_draw_set_region, Hdraw; reflexivity
    | exact Hbytes | reflexivity | lia | lia |].
  rewrite <- Hlen.
  replace (Z.of_nat (4 * length ps)) with (Z.of_nat (length ps) * 4) by lia.
  rewrite Z.div_mul by lia. lia.
Qed.

Lemma sw_ready_set_vram d b s bs fb k v :
  sw_ready d b s bs fb k -> length v = length (vram fb) ->
  sw_ready d b s bs (set_vram v fb) (set_region (Vram 0) v k).
Proof.
  intros [Hflag Hdraw Hdesc Hdata Hbytes Hlen Hu32 Hfb0 Hdev Hfit] Hv.
  split; try assumption.
  - apply (lookup_set_region 0 v fb k Hdev).
  - cbn. lia.
Qed.

Lemma overwritten_length (new old : list byte) :
  (length new <= length old)%nat ->
  length (new ++ drop (length new) old) = length old.
Proof. intros H. rewrite length_app, length_drop. lia. Qed.

Lemma shadow_bytes d b s bs k :
  kheap k !! d = Some (Some (Descriptor (Some s))) ->
  data s = Ptr (Kmem b) 0 ->
  kheap k !! b = Some (Some (Buffer bs)) ->
  Z.of_nat (length bs) = height s * row_bytes s ->
  surface_bytes (Heap d) k = Some bs.
Proof.
  intros Hdesc Hdata Hbytes Hlen.
  unfold surface_bytes, read_surface. rewrite Hdesc, Hdata.
  rewrite (load_run (Kmem b) 0 _ bs); [| cbn; rewrite Hbytes; reflexivity | lia ..].
  rewrite <- Hlen, Nat2Z.id. change (Z.to_nat 0) with 0%nat.
  rewrite slice_all. reflexivity.
Qed.

Lemma sw_device_bytes d b s bs fb k new :
  sw_ready d b s bs fb k -> length new = length bs ->
  vram fb = new ++ drop (length new) (vram fb) ->
  load (data (gr_framebuffer0 k)) (height s * row_bytes s) k = Ok (new, k).
Proof.
  intros H Hnew Hv. destruct (sw_extent _ _ _ _ _ _ H) as (Hu & Hn).
  destruct H as [Hflag Hdraw Hdesc Hdata Hbytes Hlen Hu32 Hfb0 Hdev Hfit].
  rewrite Hfb0.
  rewrite (load_run (Vram 0) 0 _ (vram fb)); [| cbn; rewrite Hdev; reflexivity | lia ..].
  rewrite Hn. change (Z.to_nat 0) with 0%nat.
  unfold slice. rewrite drop_0, Hv, <- Hnew, take_app_length. reflexivity.
Qed.

Lemma fbdev_flip_sw_frame mode d b s bs fb k r k' :
  sw_ready d b s bs fb k -> fbdev_flip mode k = Ok (r, k') ->
  erase_vram k' = erase_vram k /\ r = gr_draw k.
Proof.
  intros [Hflag Hdraw Hdesc Hdata Hbytes Hlen Hu32 Hfb0 Hdev Hfit] H.
  unfold fbdev_flip, bind, gets in H. rewrite Hflag, Hdraw in H.
  unfold read_surface in H. rewrite Hdesc, Hfb0, Hdata in H.
  assert (forall k1, erase_vram k1 = erase_vram k ->
            Ok (gr_draw k1, k1) = Ok (r, k') ->
            erase_vram k' = erase_vram k /\ r = gr_draw k) as Hend.
  { intros k1 He Hk. injection Hk as <- <-.
    split; [exact He | exact (erase_vram_draw _ _ He)]. }
  destruct mode.
  - destruct (bgra_loop _ _ _ _ _ k) as [[u k1] | e] eqn:E; [| discriminate].
    apply (Hend k1); [exact (bgra_loop_frame _ _ _ _ _ _ _ _ _ E) | exact H].
  - unfold memcpy, bind in H.
    destruct (load _ _ k) as [[l k1] | e] eqn:E; [| discriminate].
    apply load_frame in E as ->. cbn [overlapping] in H.
    destruct (store _ _ k) as [[u k1] | e] eqn:E; [| discriminate].
    apply (Hend k1); [exact (store_frame _ _ _ _ _ _ E) | exact H].
Qed.

Lemma fbdev_init_sw_ready k fb fbs r k' :
  registered_fb k = fb :: fbs -> valid_geometry fb ->
  fbdev_init k = Ok (r, k') -> r <> SNULL -> double_buffered k' = false ->
  exists d b s fb',
    r = Heap d /\
    sw_ready d b s (all_zero (Z.to_nat (height s * row_bytes s))) fb' k'.
Proof.
  intros Hreg Hg H Hr Hdb.
  pose proof (valid_frame_bytes fb Hg) as Hfb.
  pose proof (frame_bytes_range fb) as Hrange.
  pose proof (valid_frame_fits fb Hg) as Hfit.
  pose proof (valid_vram_ok fb Hg) as Hv. unfold vram_ok in Hv.
  destruct (fbdev_init_cases k fb fbs r k' Hreg (valid_vram_ok fb Hg) H)
    as (_ & [(_ & _ & _ & A) | [(_ & -> & A) | (_ & -> & _)]]).
  - rewrite (hw_flag _ _ _ _ A) in Hdb. discriminate.
  - destruct A as [Hflag H0 Hdraw _ Hheap (fb' & Hdev & Hvram & _)].
    exists (length (kheap k)), (S (length (kheap k))),
           (set_data (Ptr (Kmem (S (length (kheap k)))) 0) (surface0 fb)), fb'.
    split; [reflexivity |].
    split; cbn [height row_bytes set_data surface0 data].
    + exact Hflag.
    + exact Hdraw.
    + rewrite Hheap. apply lookup_snoc2.
    + reflexivity.
    + rewrite Hheap, <- Hfb. apply lookup_snoc2_last.
    + unfold all_zero. rewrite length_replicate. lia.
    + lia.
    + rewrite H0. reflexivity.
    + rewrite Hdev. reflexivity.
    + rewrite Hvram. unfold all_zero. rewrite length_replicate. lia.
  - contradiction.
Qed.

Lemma sw_drawn_ready :
  sw_ready 0 1 sw_surface (flat_map rgba sw_pixels) sw_device sw_drawn.
Proof.
  split; vm_compute; try reflexivity. discriminate.
Qed.

(** C5: under the software strategy with the direct copy, [fbdev_flip]
    copies the [height * row_bytes] bytes of the shadow buffer to the start
    of the device's video memory, where buffer 0 lies: afterwards the device
    memory holds exactly the bytes the caller drew.  It returns the draw
    surface it was called with, [gr_draw] is unchanged, and the state is
    again one in which the next flip does the same. *)
Theorem fbdev_flip_direct_copy d b s bs fb k :
  sw_ready d b s bs fb k ->
  exists k' fb',
    fbdev_flip false k = Ok (gr_draw k, k') /\
    gr_draw k' = gr_draw k /\
    registered_fb k' !! 0%nat = Some fb' /\
    take (Z.to_nat (height s * row_bytes s)) (vram fb') = bs /\
    load (data (gr_framebuffer0 k')) (height s * row_bytes s) k' = Ok (bs, k') /\
    sw_ready d b s bs fb' k'.
Proof.
  intros H. destruct (sw_extent _ _ _ _ _ _ H) as (Hu & Hn).
  pose proof (sr_len _ _ _ _ _ _ H) as Hlen.
  pose proof (sr_fit _ _ _ _ _ _ H) as Hfit.
  pose proof (sr_draw _ _ _ _ _ _ H) as Hdraw.
  assert (length (bs ++ drop (length bs) (vram fb)) = length (vram fb)) as Hl
    by (apply overwritten_length; lia).
  pose proof (sw_ready_set_vram d b s bs fb k _ H Hl) as H'.
  eexists. exists (set_vram (bs ++ drop (length bs) (vram fb)) fb).
  split; [rewrite Hdraw; exact (fbdev_flip_direct_run d b s bs fb k H) |].
  split; [apply gr_draw_set_region |].
  split; [exact (sr_dev _ _ _ _ _ _ H') |].
  split; [rewrite Hn; apply take_app_length |].
  split; [| exact H'].
  apply (sw_device_bytes d b s bs _ _ bs H'); [reflexivity |].
  cbn. rewrite drop_app_length. reflexivity.
Qed.

Lemma fbdev_flip_direct_copy_witness :
  exists k',
    fbdev_flip false sw_drawn = Ok (Heap 0, k') /\
    load (data (gr_framebuffer0 k')) 16 k' = Ok (flat_map rgba sw_pixels, k').
Proof.
  destruct (fbdev_flip_direct_copy 0 1 sw_surface (flat_map rgba sw_pixels)
              sw_device sw_drawn sw_drawn_ready)
    as (k' & fb' & Hrun & _ & _ & _ & Hload & _).
  exists k'. split; [exact Hrun | exact Hload].
Defined.

(** C6: under the software strategy with the swapped-channel copy, when the
    shadow buffer holds the pixels [ps] as (r, g, b, a) bytes, [fbdev_flip]
    leaves in the device's video memory, over the full
    [height * row_bytes] extent, the same pixels as (b, g, r, a) bytes: the
    first and third byte of every 4-byte pixel are swapped. *)
Theorem fbdev_flip_swapped_copy d b s ps fb k :
  sw_ready d b s (flat_map rgba ps) fb k ->
  exists k' fb',
    fbdev_flip true k = Ok (gr_draw k, k') /\
    registered_fb k' !! 0%nat = Some fb' /\
    take (Z.to_nat (height s * row_bytes s)) (vram fb') = flat_map bgra ps /\
    load (data (gr_framebuffer0 k')) (height s * row_bytes s) k'
      = Ok (flat_map bgra ps, k') /\
    sw_ready d b s (flat_map rgba ps) fb' k'.
Proof.
  intros H. destruct (sw_extent _ _ _ _ _ _ H) as (Hu & Hn).
  pose proof (sr_len _ _ _ _ _ _ H) as Hlen.
  pose proof (sr_fit _ _ _ _ _ _ H) as Hfit.
  pose proof (sr_draw _ _ _ _ _ _ H) as Hdraw.
  rewrite rgba_length in Hlen, Hn.
  assert (length (flat_map bgra ps ++ drop (4 * length ps) (vram fb))
          = length (vram fb)) as Hl.
  { rewrite <- (bgra_length ps). apply overwritten_length.
    rewrite bgra_length. lia. }
  pose proof (sw_ready_set_vram d b s _ fb k _ H Hl) as H'.
  eexists. exists (set_vram (flat_map bgra ps ++ drop (4 * length ps) (vram fb)) fb).
  split; [rewrite Hdraw; exact (fbdev_flip_bgra_run d b s ps fb k H) |].
  split; [exact (sr_dev _ _ _ _ _ _ H') |].
  split; [rewrite Hn, <- (bgra_length ps); apply take_app_length |].
  split; [| exact H'].
  apply (sw_device_bytes d b s _ _ _ (flat_map bgra ps) H').
  - rewrite bgra_length, rgba_length. reflexivity.
  - cbn [vram set_vram]. rewrite drop_app_length. reflexivity.
Qed.

Lemma fbdev_flip_swapped_copy_witness :
  exists k',
    fbdev_flip true sw_drawn = Ok (Heap 0, k') /\
    load (data (gr_framebuffer0 k')) 16 k'
      = Ok ([x03; x02; x01; x04; x07; x06; x05; x08;
             x0b; x0a; x09; x0c; x0f; x0e; x0d; x10], k').
Proof.
  destruct (fbdev_flip_swapped_copy 0 1 sw_surface sw_pixels
              sw_device sw_drawn sw_drawn_ready)
    as (k' & fb' & Hrun & _ & _ & Hload & _).
  exists k'. split; [exact Hrun | exact Hload].
Defined.

(** C10: under the software strategy, whichever copy is built in, a
    [fbdev_flip] that returns has written nothing but video memory: the
    heap, the statics and the log are as before, so the shadow buffer still
    holds the bytes the caller drew and the surface returned is the one the
    caller had.  The direct copy always returns; the swapped-channel copy
    returns whenever the buffer holds whole 4-byte pixels. *)
Theorem fbdev_flip_keeps_shadow d b s bs fb k :
  sw_ready d b s bs fb k ->
  (forall mode r k', fbdev_flip mode k = Ok (r, k') ->
     erase_vram k' = erase_vram k /\
     r = gr_draw k /\
     kheap k' !! b = Some (Some (Buffer bs)) /\
     surface_bytes r k' = Some bs) /\
  (exists k', fbdev_flip false k = Ok (gr_draw k, k')) /\
  (forall ps, bs = flat_map rgba ps ->
     exists k', fbdev_flip true k = Ok (gr_draw k, k')).
Proof.
  intros H. pose proof (sr_draw _ _ _ _ _ _ H) as Hdraw. split; [| split].
  - intros mode r k' Hrun.
    destruct (fbdev_flip_sw_frame mode d b s bs fb k r k' H Hrun) as (He & ->).
    pose proof (erase_vram_heap _ _ He) as Hheap.
    split; [exact He |]. split; [reflexivity |].
    split; [rewrite Hheap; exact (sr_bytes _ _ _ _ _ _ H) |].
    rewrite Hdraw. destruct H as [_ _ Hdesc Hdata Hbytes Hlen _ _ _ _].
    apply (shadow_bytes d b s bs k'); rewrite ?Hheap; assumption.
  - eexists. rewrite Hdraw. exact (fbdev_flip_direct_run d b s bs fb k H).
  - intros ps ->. eexists. rewrite Hdraw. exact (fbdev_flip_bgra_run d b s ps fb k H).
Qed.

Lemma fbdev_flip_keeps_shadow_witness :
  exists k',
    fbdev_flip false sw_drawn = Ok (Heap 0, k') /\
    kheap k' = kheap sw_drawn /\
    surface_bytes (Heap 0) k' = Some (flat_map rgba sw_pixels).
Proof.
  destruct (fbdev_flip_keeps_shadow 0 1 sw_surface (flat_map rgba sw_pixels)
              sw_device sw_drawn sw_drawn_ready)
    as (Hall & (k' & Hrun) & _).
  destruct (Hall false _ k' Hrun) as (He & _ & _ & Hb).
  exists k'. split; [exact Hrun |].
  split; [exact (erase_vram_heap _ _ He) | exact Hb].
Defined.

(** ** Refused requests *)

Lemma errors_if_negative_refused r msg :
  r < 0 -> errors_if_negative r msg = [KERN_ERR msg].
Proof.
  intros H. unfold errors_if_negative.
  replace (r <? 0) with true by (symmetry; apply Z.ltb_lt; lia). reflexivity.
Qed.

(** C8: when the driver refuses the request (negative return code),
    [fbdev_blank] still returns, having only logged the failure: the
    statics and the heap are as before and the device keeps its power
    state; and under the hardware strategy [fbdev_flip] still returns the
    new draw surface and still moves the displayed index to its complement,
    having logged the failure, while the device keeps its old screen
    information. *)
Theorem refused_request_is_logged i fb k :
  fbi k = Some i -> registered_fb k !! i = Some fb -> next_reply fb < 0 ->
  (forall blank, exists k' fb',
     fbdev_blank blank k = Ok (tt, k') /\
     klog k' = klog k ++ [KERN_ERR "ioctl(): blank"] /\
     registered_fb k' !! i = Some fb' /\
     last (issued fb') = Some (blank_request blank) /\
     power fb' = power fb /\ vram fb' = vram fb /\
     gr_draw k' = gr_draw k /\ displayed_buffer k' = displayed_buffer k /\
     double_buffered k' = double_buffered k /\ kheap k' = kheap k) /\
  (double_buffered k = true ->
   displayed_buffer k = 0 \/ displayed_buffer k = 1 ->
   forall mode, exists k' fb',
     fbdev_flip mode k = Ok (Static (displayed_buffer k), k') /\
     gr_draw k' = Static (displayed_buffer k) /\
     displayed_buffer k' = 1 - displayed_buffer k /\
     klog k' = klog k ++ [KERN_ERR "active fb swap failed"] /\
     registered_fb k' !! i = Some fb' /\
     last (issued fb') = Some (FBIOPUT_VSCREENINFO (vi k')) /\
     var fb' = var fb /\ vram fb' = vram fb).
Proof.
  intros Hi Hfb Hneg.
  pose proof (lookup_lt_Some _ _ _ Hfb) as Hlt. split.
  - intros blank.
    eexists. exists (fb_request (blank_request blank) fb).2.
    split; [exact (fbdev_blank_run blank i fb k Hi Hfb) |].
    unfold requested. cbn.
    rewrite fb_request_issued, fb_request_vram.
    rewrite (errors_if_negative_refused _ _ Hneg).
    split; [reflexivity |].
    split; [apply list_lookup_insert_eq; exact Hlt |].
    split; [apply last_snoc |].
    split; [apply (fb_request_refused _ fb Hneg) |].
    repeat (split; [reflexivity |]). reflexivity.
  - intros Hdb Hd mode.
    assert (hw_ready i fb k) as Hr by (split; assumption).
    destruct (swapped_facts (1 - displayed_buffer k) i fb
                (set_gr_draw (Static (displayed_buffer k)) k) Hfb)
      as (Hdraw & Hdisp & _ & _ & _ & _ & _ & Hvi & Hdev & Hlog).
    eexists.
    exists (fb_request (FBIOPUT_VSCREENINFO
              (swap_var (1 - displayed_buffer k)
                 (set_gr_draw (Static (displayed_buffer k)) k))) fb).2.
    split; [exact (fbdev_flip_hw_run mode i fb k Hr) |].
    split; [exact Hdraw |]. split; [exact Hdisp |].
    split; [rewrite Hlog, (errors_if_negative_refused _ _ Hneg); reflexivity |].
    split; [exact Hdev |].
    split; [rewrite fb_request_issued, Hvi; apply last_snoc |].
    split; [apply (fb_request_refused _ fb Hneg) | apply fb_request_vram].
Qed.

Lemma refused_request_is_logged_witness :
  (exists k', fbdev_blank true hw_refusing = Ok (tt, k') /\
              last (klog k') = Some (KERN_ERR "ioctl(): blank")) /\
  (exists k', fbdev_flip false hw_refusing = Ok (Static 0, k') /\
              displayed_buffer k' = 1 /\
              last (klog k') = Some (KERN_ERR "active fb swap failed")).
Proof.
  destruct (refused_request_is_logged 0 hw_refusing_device hw_refusing)
    as (Hblank & Hflip).
  - reflexivity.
  - vm_compute. reflexivity.
  - vm_compute. reflexivity.
  - split.
    + destruct (Hblank true) as (k' & _ & Hrun & Hlog & _).
      exists k'. split; [exact Hrun |]. rewrite Hlog. apply last_snoc.
    + destruct (Hflip eq_refl (or_introl eq_refl) false)
        as (k' & _ & Hrun & _ & Hd & Hlog & _).
      exists k'. split; [exact Hrun |]. split; [exact Hd |].
      rewrite Hlog. apply last_snoc.
Defined.

(** ** [fbdev_exit] *)

Lemma release_run b c k :
  kheap k !! b = Some (Some c) ->
  release b k = Ok (tt, set_kheap (<[b := None]> (kheap k)) k).
Proof. intros H. unfold release. rewrite H. reflexivity. Qed.

(** C9: under the software strategy [fbdev_exit] frees the shadow buffer's
    storage and its descriptor and touches no other block; under the
    hardware strategy the state it leaves is the one it found with only
    [gr_draw] changed, so the buffer descriptors, the heap and the device
    with its memory are untouched; in both cases [gr_draw] is NULL
    afterwards. *)
Theorem fbdev_exit_releases k :
  (double_buffered k = true ->
   fbdev_exit k = Ok (tt, set_gr_draw SNULL k) /\
   gr_draw (set_gr_draw SNULL k) = SNULL /\
   gr_framebuffer0 (set_gr_draw SNULL k) = gr_framebuffer0 k /\
   gr_framebuffer1 (set_gr_draw SNULL k) = gr_framebuffer1 k /\
   registered_fb (set_gr_draw SNULL k) = registered_fb k /\
   kheap (set_gr_draw SNULL k) = kheap k) /\
  (forall d b s bs fb, sw_ready d b s bs fb k ->
   exists k',
     fbdev_exit k = Ok (tt, k') /\
     gr_draw k' = SNULL /\
     kheap k' !! b = Some None /\ kheap k' !! d = Some None /\
     (forall j, j <> b -> j <> d -> kheap k' !! j = kheap k !! j) /\
     registered_fb k' = registered_fb k).
Proof.
  split.
  - intros Hdb. split; [| repeat split].
    unfold fbdev_exit, bind, gets. rewrite Hdb. reflexivity.
  - intros d b s bs fb [Hflag Hdraw Hdesc Hdata Hbytes _ _ _ _ _].
    assert (d <> b) as Hne by (intros ->; rewrite Hdesc in Hbytes; discriminate).
    pose proof (lookup_lt_Some _ _ _ Hdesc) as Hd.
    pose proof (lookup_lt_Some _ _ _ Hbytes) as Hb.
    eexists. split.
    { unfold fbdev_exit, bind, gets. rewrite Hflag, Hdraw. cbn [negb andb].
      unfold read_surface. rewrite Hdesc, Hdata. cbn [kfree kfree_surface].
      rewrite (release_run b _ k Hbytes).
      erewrite release_run;
        [| cbn; rewrite list_lookup_insert_ne by auto; exact Hdesc].
      reflexivity. }
    cbn.
    split; [reflexivity |].
    split; [rewrite list_lookup_insert_ne by auto;
            apply list_lookup_insert_eq; exact Hb |].
    split; [apply list_lookup_insert_eq; rewrite length_insert; exact Hd |].
    split; [| reflexivity].
    intros j Hjb Hjd. rewrite !list_lookup_insert_ne by auto. reflexivity.
Qed.

Lemma fbdev_exit_releases_witness :
  (exists k', fbdev_exit hw_inited = Ok (tt, k') /\ gr_draw k' = SNULL) /\
  (exists k', fbdev_exit sw_drawn = Ok (tt, k') /\ gr_draw k' = SNULL /\
              kheap k' = [None; None]).
Proof.
  split.
  - destruct (fbdev_exit_releases hw_inited) as (Hhw & _).
    destruct (Hhw eq_refl) as (Hrun & Hdraw & _).
    eexists. split; [exact Hrun | exact Hdraw].
  - destruct (fbdev_exit_releases sw_drawn) as (_ & Hsw).
    destruct (Hsw 0%nat 1%nat sw_surface _ sw_device sw_drawn_ready)
      as (k' & Hrun & Hdraw & _).
    exists k'. split; [exact Hrun |]. split; [exact Hdraw |].
    vm_compute in Hrun. injection Hrun as <-. reflexivity.
Defined.

(** ** The caller draws; the copy loop ends *)

(** Whatever the caller writes over the shadow buffer, the state stays one
    in which [fbdev_flip] runs. *)
Lemma sw_ready_draw d b s bs fb k bs' :
  sw_ready d b s bs fb k -> length bs' = length bs ->
  sw_ready d b s bs' fb (set_region (Kmem b) bs' k).
Proof.
  intros [Hflag Hdraw Hdesc Hdata Hbytes Hlen Hu32 Hfb0 Hdev Hfit] Hl.
  assert (d <> b) as Hne by (intros ->; rewrite Hdesc in Hbytes; discriminate).
  split; cbn; try assumption.
  - rewrite list_lookup_insert_ne by auto. exact Hdesc.
  - apply list_lookup_insert_eq. exact (lookup_lt_Some _ _ _ Hbytes).
  - lia.
Qed.

Lemma load_byte_no_hang p i k : load_byte p i k <> Fault Hang.
Proof.
  unfold load_byte, bind, load. destruct (ptr_add p i) as [| b off]; [discriminate |].
  destruct (readable b k); [| discriminate].
  destruct (in_range _ _ _); [| discriminate].
  destruct (slice _ _ _) as [| x [| y rest]]; discriminate.
Qed.

Lemma store_byte_no_hang p i x k : store_byte p i x k <> Fault Hang.
Proof.
  unfold store_byte, store. destruct (ptr_add p i) as [| b off]; [discriminate |].
  destruct (region b k); [| discriminate].
  destruct (in_range _ _ _); discriminate.
Qed.

Lemma bind_fault {A B} (c : M A) (f : A -> M B) k e :
  bind c f k = Fault e ->
  c k = Fault e \/ exists a k1, c k = Ok (a, k1) /\ f a k1 = Fault e.
Proof.
  unfold bind. destruct (c k) as [[a k1] | e'].
  - intros H. right. exists a, k1. auto.
  - intros H. left. injection H as ->. reflexivity.
Qed.

(** With the fuel [fbdev_flip] gives it, the copy loop stops for want of
    fuel only if [idx + 4] can wrap around before [idx] reaches the extent,
    that is for an extent above [2 ^ 32 - 4]; the C loop does not end then. *)
Lemma bgra_loop_no_hang fuel fbp buf ext idx k :
  ext <= 2 ^ 32 - 4 -> 0 <= idx -> ext - idx < 4 * Z.of_nat fuel ->
  bgra_loop fuel fbp buf ext idx k <> Fault Hang.
Proof.
  intros Hext. revert idx k.
  induction fuel as [| fuel IH]; intros idx k Hidx Hfuel.
  - cbn. replace (idx <? ext) with false by (symmetry; apply Z.ltb_ge; lia).
    discriminate.
  - cbn [bgra_loop]. destruct (idx <? ext) eqn:Hlt; [| discriminate].
    apply Z.ltb_lt in Hlt. intros H.
    apply bind_fault in H as [H | (b2 & k1 & _ & H)];
      [exact (load_byte_no_hang _ _ _ H) |].
    apply bind_fault in H as [H | (? & k2 & _ & H)];
      [exact (store_byte_no_hang _ _ _ _ H) |].
    apply bind_fault in H as [H | (b1 & k3 & _ & H)];
      [exact (load_byte_no_hang _ _ _ H) |].
    apply bind_fault in H as [H | (? & k4 & _ & H)];
      [exact (store_byte_no_hang _ _ _ _ H) |].
    apply bind_fault in H as [H | (b0 & k5 & _ & H)];
      [exact (load_byte_no_hang _ _ _ H) |].
    apply bind_fault in H as [H | (? & k6 & _ & H)];
      [exact (store_byte_no_hang _ _ _ _ H) |].
    apply bind_fault in H as [H | (b3 & k7 & _ & H)];
      [exact (load_byte_no_hang _ _ _ H) |].
    apply bind_fault in H as [H | (? & k8 & _ & H)];
      [exact (store_byte_no_hang _ _ _ _ H) |].
    revert H. apply IH; rewrite uadd_small by (unfold in_u32; lia); lia.
Qed.

(** * Further properties of the four operations *)

(** ** Calls that find nothing to work with *)

(** X1: with no framebuffer registered, [fbdev_init] returns NULL and
    leaves the statics, the devices, the heap and the log as they were. *)
Theorem fbdev_init_without_device k :
  registered_fb k = [] -> fbdev_init k = Ok (SNULL, k).
Proof.
  intros Hreg. unfold fbdev_init, bind. rewrite (probe_none k Hreg). reflexivity.
Qed.

Lemma fbdev_init_without_device_witness :
  fbdev_init (boot [] [Granted stale]) = Ok (SNULL, boot [] [Granted stale]).
Proof.
  apply (fbdev_init_without_device (boot [] [Granted stale])). reflexivity.
Defined.

(** X2: the result of the first [kmalloc] (line 130) is not checked: when
    the allocator refuses the descriptor, the [memcpy] of line 131 writes
    through NULL and [fbdev_init] does not return. *)
Theorem fbdev_init_descriptor_refused k fb fbs :
  registered_fb k = fb :: fbs -> valid_geometry fb ->
  smem_len (fix_info fb) < yres (var fb) * line_length (fix_info fb) * 2 < 2 ^ 32 ->
  refuses (kmalloc_plan k) ->
  fbdev_init k = Fault NullDeref.
Proof.
  intros Hreg Hg Hlt Hplan.
  rewrite (fbdev_init_after_probe k fb fbs Hreg (valid_vram_ok fb Hg)
             (valid_frame_fits fb Hg)).
  apply (buffers_sw_no_descriptor k fb fbs (valid_not_hw_cond fb Hg Hlt) Hplan).
Qed.

Lemma fbdev_init_descriptor_refused_witness :
  fbdev_init (boot [panel 20 []] [ENOMEM; Granted stale]) = Fault NullDeref.
Proof.
  apply (fbdev_init_descriptor_refused
           (boot [panel 20 []] [ENOMEM; Granted stale]) (panel 20 []) []).
  - reflexivity.
  - apply panel_valid. lia.
  - vm_compute. split; reflexivity.
  - exact I.
Defined.

(** X3: before [fbdev_init], and after an [fbdev_init] that returned NULL,
    [fbi] is NULL (it is set at line 140 only): [fbdev_blank] then calls
    through NULL.  Before [fbdev_init] [fbdev_flip] reads through the NULL
    [gr_draw], and [fbdev_exit] changes nothing. *)
Theorem operations_without_init fbs plan :
  (forall fb, head fbs = Some fb -> valid_geometry fb) ->
  (forall blank, fbdev_blank blank (boot fbs plan) = Fault NullDeref) /\
  (forall mode, fbdev_flip mode (boot fbs plan) = Fault NullDeref) /\
  fbdev_exit (boot fbs plan) = Ok (tt, boot fbs plan) /\
  (forall k' blank, fbdev_init (boot fbs plan) = Ok (SNULL, k') ->
     fbdev_blank blank k' = Fault NullDeref).
Proof.
  intros Hvalid.
  assert (forall k blank, fbi k = None -> fbdev_blank blank k = Fault NullDeref)
    as Hblank.
  { intros k blank Hfbi. unfold fbdev_blank, fb_ioctl. cbn. rewrite Hfbi.
    reflexivity. }
  split; [intros blank; apply Hblank; reflexivity |].
  split; [intros mode; reflexivity |].
  split; [reflexivity |].
  intros k' blank Hinit. apply Hblank.
  destruct fbs as [| fb fbs].
  - rewrite fbdev_init_no_device in Hinit by reflexivity.
    injection Hinit as <-. reflexivity.
  - destruct (fbdev_init_cases (boot (fb :: fbs) plan) fb fbs SNULL k' eq_refl
                (valid_vram_ok fb (Hvalid fb eq_refl)) Hinit)
      as (_ & [(_ & _ & Hr & _) | [(_ & Hr & _) | (_ & _ & A)]]);
      try discriminate.
    rewrite (nm_fbi _ _ _ _ A). reflexivity.
Qed.

Lemma operations_without_init_witness :
  fbdev_blank true
    (state_after fbdev_init (boot [panel 20 []] [Granted stale]))
  = Fault NullDeref.
Proof.
  apply (operations_without_init [panel 20 []] [Granted stale]).
  - intros fb Hfb. injection Hfb as <-. apply panel_valid. lia.
  - vm_compute. reflexivity.
Defined.

(** ** [fbdev_blank] *)

Lemma fb_request_replies rq fb :
  is_query rq = false -> replies (fb_request rq fb).2 = tail (replies fb).
Proof.
  intros H. unfold fb_request. rewrite H. cbn.
  destruct (next_reply fb <? 0), rq; reflexivity.
Qed.

Lemma fb_request_accepted_blank m fb :
  0 <= next_reply fb ->
  power (fb_request (FBIOBLANK m) fb).2 = m /\
  var (fb_request (FBIOBLANK m) fb).2 = var fb.
Proof.
  intros H. unfold fb_request. cbn.
  replace (next_reply fb <? 0) with false by (symmetry; apply Z.ltb_ge; lia).
  split; reflexivity.
Qed.

Lemma fb_request_blank_var m fb : var (fb_request (FBIOBLANK m) fb).2 = var fb.
Proof. unfold fb_request. cbn. destruct (next_reply fb <? 0); reflexivity. Qed.

Lemma errors_if_negative_accepted r msg :
  0 <= r -> errors_if_negative r msg = [].
Proof.
  intros H. unfold errors_if_negative.
  replace (r <? 0) with false by (symmetry; apply Z.ltb_ge; lia). reflexivity.
Qed.

Lemma accepting_next fb : accepting fb -> 0 <= next_reply fb.
Proof.
  unfold accepting, next_reply. destruct (replies fb) as [| r rs]; [lia |].
  intros H. exact (Forall_inv H).
Qed.

Lemma accepting_request rq fb : accepting fb -> accepting (fb_request rq fb).2.
Proof.
  unfold accepting. destruct (is_query rq) eqn:Hq.
  - unfold fb_request. rewrite Hq. trivial.
  - rewrite (fb_request_replies rq fb Hq).
    destruct (replies fb) as [| r rs]; [trivial |].
    intros H. exact (Forall_inv_tail H).
Qed.

(** X4: [fbdev_blank] sends the device exactly one FBIOBLANK request, with
    FB_BLANK_POWERDOWN for true and FB_BLANK_UNBLANK for false, and touches
    nothing else: video memory, screen information, the statics and the
    heap are as before.  When the driver accepts, the device is in the
    requested power state and nothing is logged. *)
Theorem fbdev_blank_effect blank i fb k :
  fbi k = Some i -> registered_fb k !! i = Some fb ->
  exists k' fb',
    fbdev_blank blank k = Ok (tt, k') /\
    registered_fb k' = <[i := fb']> (registered_fb k) /\
    issued fb' = issued fb ++ [FBIOBLANK (blank_mode_of blank)] /\
    vram fb' = vram fb /\ var fb' = var fb /\ fix_info fb' = fix_info fb /\
    (0 <= next_reply fb ->
     power fb' = blank_mode_of blank /\ klog k' = klog k) /\
    kheap k' = kheap k /\ gr_draw k' = gr_draw k /\
    displayed_buffer k' = displayed_buffer k /\ vi k' = vi k /\
    double_buffered k' = double_buffered k /\
    gr_framebuffer0 k' = gr_framebuffer0 k /\
    gr_framebuffer1 k' = gr_framebuffer1 k.
Proof.
  intros Hi Hfb.
  eexists. exists (fb_request (blank_request blank) fb).2.
  split; [exact (fbdev_blank_run blank i fb k Hi Hfb) |].
  unfold requested. cbn.
  rewrite fb_request_issued, fb_request_vram, fb_request_fix.
  split; [reflexivity |]. split; [reflexivity |]. split; [reflexivity |].
  split; [apply fb_request_blank_var |]. split; [reflexivity |].
  split; [| repeat split].
  intros Hacc. split; [apply (fb_request_accepted_blank _ fb Hacc) |].
  rewrite (errors_if_negative_accepted _ _ Hacc). apply app_nil_r.
Qed.

Lemma fbdev_blank_effect_witness :
  exists k' fb',
    fbdev_blank true hw_inited = Ok (tt, k') /\
    registered_fb k' = [fb'] /\ power fb' = FB_BLANK_POWERDOWN.
Proof.
  destruct (fbdev_blank_effect true 0
              (match registered_fb hw_inited with
               | fb :: _ => fb
               | [] => panel 32 []
               end) hw_inited)
    as (k' & fb' & Hrun & Hreg & _ & _ & _ & _ & Hacc & _).
  - reflexivity.
  - vm_compute. reflexivity.
  - exists k', fb'. split; [exact Hrun |]. split; [exact Hreg |].
    apply Hacc. vm_compute. discriminate.
Defined.

(** X5: with an accepting driver, [fbdev_blank] twice with the same
    argument leaves the device in the same power state as once, and the
    second call changes nothing but the device's record of requests. *)
Theorem fbdev_blank_twice blank i fb k :
  fbi k = Some i -> registered_fb k !! i = Some fb -> accepting fb ->
  exists k1 k2 fb1 fb2,
    fbdev_blank blank k = Ok (tt, k1) /\
    fbdev_blank blank k1 = Ok (tt, k2) /\
    registered_fb k1 !! i = Some fb1 /\
    registered_fb k2 !! i = Some fb2 /\
    power fb1 = blank_mode_of blank /\
    power fb2 = power fb1 /\ var fb2 = var fb1 /\ vram fb2 = vram fb1 /\
    klog k2 = klog k1 /\ kheap k2 = kheap k1 /\
    gr_draw k2 = gr_draw k1 /\ displayed_buffer k2 = displayed_buffer k1.
Proof.
  intros Hi Hfb Hacc.
  pose proof (lookup_lt_Some _ _ _ Hfb) as Hlt.
  pose proof (accepting_request (blank_request blank) fb Hacc) as Hacc1.
  pose proof (fbdev_blank_run blank i fb k Hi Hfb) as Hrun1.
  set (fb1 := (fb_request (blank_request blank) fb).2) in *.
  set (k1 := requested i (blank_request blank) fb "ioctl(): blank" k) in *.
  assert (registered_fb k1 !! i = Some fb1) as Hfb1
    by (apply list_lookup_insert_eq; exact Hlt).
  pose proof (fbdev_blank_run blank i fb1 k1 Hi Hfb1) as Hrun2.
  exists k1, (requested i (blank_request blank) fb1 "ioctl(): blank" k1),
         fb1, (fb_request (blank_request blank) fb1).2.
  split; [exact Hrun1 |]. split; [exact Hrun2 |]. split; [exact Hfb1 |].
  split; [apply list_lookup_insert_eq; cbn; rewrite length_insert; exact Hlt |].
  destruct (fb_request_accepted_blank (blank_mode_of blank) fb
              (accepting_next fb Hacc)) as (Hp1 & _).
  destruct (fb_request_accepted_blank (blank_mode_of blank) fb1
              (accepting_next fb1 Hacc1)) as (Hp2 & Hv2).
  split; [exact Hp1 |].
  split; [change (blank_request blank) with (FBIOBLANK (blank_mode_of blank));
          rewrite Hp2; symmetry; exact Hp1 |].
  split; [exact Hv2 |]. split; [apply fb_request_vram |].
  split; [| repeat split].
  cbn. rewrite (errors_if_negative_accepted _ _ (accepting_next fb1 Hacc1)).
  apply app_nil_r.
Qed.

Lemma fbdev_blank_twice_witness :
  exists k1 k2 fb1 fb2,
    fbdev_blank true hw_inited = Ok (tt, k1) /\
    fbdev_blank true k1 = Ok (tt, k2) /\
    registered_fb k1 !! 0%nat = Some fb1 /\
    registered_fb k2 !! 0%nat = Some fb2 /\
    power fb2 = power fb1.
Proof.
  destruct (fbdev_blank_twice true 0
              (match registered_fb hw_inited with
               | fb :: _ => fb
               | [] => panel 32 []
               end) hw_inited)
    as (k1 & k2 & fb1 & fb2 & H1 & H2 & H3 & H4 & _ & H5 & _).
  - reflexivity.
  - vm_compute. reflexivity.
  - vm_compute. constructor.
  - exists k1, k2, fb1, fb2. auto.
Defined.

(** ** [fbdev_exit] *)

Lemma fbdev_exit_ends k u k1 :
  fbdev_exit k = Ok (u, k1) -> exists k0, k1 = set_gr_draw SNULL k0.
Proof.
  unfold fbdev_exit. intros H.
  apply bind_inv in H as (db & ka & Ha & H).
  apply bind_inv in H as (d & kb & Hb & H).
  apply bind_inv in H as (? & kc & _ & H).
  cbn in H. injection H as _ <-. exists kc. reflexivity.
Qed.

(** X6: [fbdev_exit] leaves [gr_draw] NULL, so a second [fbdev_exit] finds
    nothing to free: it returns and changes nothing, under either
    strategy. *)
Theorem fbdev_exit_twice k u k1 :
  fbdev_exit k = Ok (u, k1) ->
  gr_draw k1 = SNULL /\ fbdev_exit k1 = Ok (tt, k1).
Proof.
  intros H. destruct (fbdev_exit_ends k u k1 H) as (k0 & ->).
  split; [reflexivity |].
  unfold fbdev_exit, bind, gets. cbn.
  rewrite andb_false_r. reflexivity.
Qed.

Lemma fbdev_exit_twice_witness :
  fbdev_exit (state_after fbdev_exit sw_drawn)
  = Ok (tt, state_after fbdev_exit sw_drawn).
Proof.
  apply (fbdev_exit_twice sw_drawn tt (state_after fbdev_exit sw_drawn)).
  vm_compute. reflexivity.
Defined.

Lemma fbdev_exit_sw_run d b s bs fb k :
  sw_ready d b s bs fb k ->
  exists k', fbdev_exit k = Ok (tt, k') /\
             double_buffered k' = false /\ gr_draw k' = SNULL.
Proof.
  intros [Hflag Hdraw Hdesc Hdata Hbytes _ _ _ _ _].
  assert (d <> b) as Hne by (intros ->; rewrite Hdesc in Hbytes; discriminate).
  eexists. split.
  { unfold fbdev_exit, bind, gets. rewrite Hflag, Hdraw. cbn [negb andb].
    unfold read_surface. rewrite Hdesc, Hdata. cbn [kfree kfree_surface].
    rewrite (release_run b _ k Hbytes).
    erewrite release_run;
      [| cbn; rewrite list_lookup_insert_ne by auto; exact Hdesc].
    reflexivity. }
  cbn. split; [exact Hflag | reflexivity].
Qed.

(** X7: after [fbdev_exit] under the software strategy the next
    [fbdev_flip] reads through the NULL [gr_draw] (it does not reach the
    freed blocks); under the hardware strategy [fbdev_flip] works as before
    and installs a draw surface again. *)
Theorem fbdev_flip_after_exit k :
  (forall d b s bs fb mode k1,
     sw_ready d b s bs fb k -> fbdev_exit k = Ok (tt, k1) ->
     fbdev_flip mode k1 = Fault NullDeref) /\
  (forall i fb mode k1,
     hw_ready i fb k -> fbdev_exit k = Ok (tt, k1) ->
     exists k2,
       fbdev_flip mode k1 = Ok (Static (displayed_buffer k), k2) /\
       gr_draw k2 = Static (displayed_buffer k) /\
       displayed_buffer k2 = 1 - displayed_buffer k).
Proof.
  split.
  - intros d b s bs fb mode k1 Hr Hexit.
    destruct (fbdev_exit_sw_run d b s bs fb k Hr) as (k' & Hrun & Hdb & Hdraw).
    rewrite Hexit in Hrun. injection Hrun as <-.
    unfold fbdev_flip, bind, gets. rewrite Hdb, Hdraw. reflexivity.
  - intros i fb mode k1 [Hflag Hd Hi Hfb] Hexit.
    assert (k1 = set_gr_draw SNULL k) as ->.
    { revert Hexit. unfold fbdev_exit, bind, gets. rewrite Hflag. cbn.
      intros H. injection H as <-. reflexivity. }
    assert (hw_ready i fb (set_gr_draw SNULL k)) as Hr by (split; assumption).
    eexists. split; [exact (fbdev_flip_hw_run mode i fb _ Hr) |].
    split; reflexivity.
Qed.

Lemma fbdev_flip_after_exit_witness :
  fbdev_flip false (state_after fbdev_exit sw_drawn) = Fault NullDeref.
Proof.
  apply (proj1 (fbdev_flip_after_exit sw_drawn) 0%nat 1%nat sw_surface
           (flat_map rgba sw_pixels) sw_device false
           (state_after fbdev_exit sw_drawn) sw_drawn_ready).
  vm_compute. reflexivity.
Defined.

(** ** The hardware buffers *)

Lemma fmap_vram_insert (l : list fb_info) (i : nat) (fb fb' : fb_info) :
  l !! i = Some fb -> vram fb' = vram fb ->
  vram <$> <[i := fb']> l = vram <$> l.
Proof.
  intros Hfb Hv. rewrite list_fmap_insert. apply list_insert_id.
  rewrite list_lookup_fmap, Hfb, Hv. reflexivity.
Qed.

(** X8: under the hardware strategy [fbdev_flip] copies nothing: the video
    memory of every device, the heap and both buffer descriptors are as
    before; only [gr_draw], [displayed_buffer], [vi], the device's screen
    information and the log can differ. *)
Theorem fbdev_flip_hw_keeps_memory mode i fb k r k' :
  hw_ready i fb k -> fbdev_flip mode k = Ok (r, k') ->
  vram <$> registered_fb k' = vram <$> registered_fb k /\
  length (registered_fb k') = length (registered_fb k) /\
  kheap k' = kheap k /\
  gr_framebuffer0 k' = gr_framebuffer0 k /\
  gr_framebuffer1 k' = gr_framebuffer1 k /\
  double_buffered k' = true /\ fbi k' = fbi k.
Proof.
  intros Hr H. rewrite (fbdev_flip_hw_run mode i fb k Hr) in H.
  injection H as _ <-. destruct Hr as [Hflag Hd Hi Hfb].
  unfold swapped, requested. cbn.
  split; [apply (fmap_vram_insert _ i fb _ Hfb), fb_request_vram |].
  split; [apply length_insert |].
  repeat (split; [reflexivity |]). split; [exact Hflag | reflexivity].
Qed.

Lemma fbdev_flip_hw_keeps_memory_witness :
  vram <$> registered_fb hw_flipped = vram <$> registered_fb hw_inited.
Proof.
  apply (fbdev_flip_hw_keeps_memory false 0
           (match registered_fb hw_inited with
            | fb :: _ => fb
            | [] => panel 32 []
            end) hw_inited (Static 0) hw_flipped).
  - split; vm_compute; auto.
  - vm_compute. reflexivity.
Defined.

(** X9: [set_displayed_framebuffer] ignores an index above 1 (and every
    index under the software strategy): then it sends no request and
    changes nothing.  So a displayed index that is 0 or 1 stays 0 or 1,
    whatever index it is called with. *)
Theorem set_displayed_framebuffer_guard n k :
  (1 < n \/ double_buffered k = false ->
   set_displayed_framebuffer n k = Ok (tt, k)) /\
  (forall u k',
     0 <= n -> displayed_buffer k = 0 \/ displayed_buffer k = 1 ->
     set_displayed_framebuffer n k = Ok (u, k') ->
     displayed_buffer k' = 0 \/ displayed_buffer k' = 1).
Proof.
  assert (1 < n \/ double_buffered k = false ->
          set_displayed_framebuffer n k = Ok (tt, k)) as Hguard.
  { intros [Hn | Hdb].
    - unfold set_displayed_framebuffer. cbn.
      replace (1 <? n) with true by (symmetry; apply Z.ltb_lt; lia). reflexivity.
    - apply set_displayed_framebuffer_single. exact Hdb. }
  split; [exact Hguard |].
  intros u k' Hn Hd H.
  destruct (Z_le_gt_dec n 1) as [Hle | Hgt].
  2: { rewrite Hguard in H by (left; lia). injection H as _ <-. exact Hd. }
  destruct (double_buffered k) eqn:Hdb.
  2: { rewrite Hguard in H by (right; reflexivity). injection H as _ <-. exact Hd. }
  destruct (fbi k) as [i |] eqn:Hi.
  2: { unfold set_displayed_framebuffer, fb_ioctl in H. cbn in H.
       rewrite Hdb in H.
       replace (1 <? n) with false in H by (symmetry; apply Z.ltb_ge; lia).
       cbn in H. rewrite Hi in H. discriminate. }
  destruct (registered_fb k !! i) as [fb |] eqn:Hfb.
  2: { unfold set_displayed_framebuffer, fb_ioctl in H. cbn in H.
       rewrite Hdb in H.
       replace (1 <? n) with false in H by (symmetry; apply Z.ltb_ge; lia).
       cbn in H. rewrite Hi in H. cbn in H. rewrite Hfb in H. discriminate. }
  rewrite (set_displayed_framebuffer_run n i fb k Hdb Hle Hi Hfb) in H.
  injection H as _ <-. cbn. lia.
Qed.

Lemma set_displayed_framebuffer_guard_witness :
  set_displayed_framebuffer 2 hw_inited = Ok (tt, hw_inited) /\
  set_displayed_framebuffer 1 sw_inited = Ok (tt, sw_inited).
Proof.
  split.
  - apply (proj1 (set_displayed_framebuffer_guard 2 hw_inited)). left. lia.
  - apply (proj1 (set_displayed_framebuffer_guard 1 sw_inited)). right.
    reflexivity.
Defined.

Lemma strategy_sw_flag k fb fbs failed ks :
  ~ hw_cond fb ->
  fbdev_init_strategy (fix_info fb) (probed fb fbs k) = Ok (failed, ks) ->
  double_buffered ks = false.
Proof.
  intros Hc H. unfold hw_cond, frame_bytes in Hc.
  unfold fbdev_init_strategy in H. cbn in H.
  apply Z.nle_gt, Z.leb_gt in Hc. rewrite Hc in H. cbn in H.
  unfold kmalloc_surface, kmalloc, kmalloc_cell in H. cbn in H.
  destruct (kmalloc_plan k) as [| [| j1] rest]; cbn in H; try discriminate.
  rewrite lookup_snoc in H. cbn in H. rewrite insert_snoc, lookup_snoc in H.
  cbn in H.
  destruct rest as [| [| j2] rest]; cbn in H;
    rewrite ?length_snoc, ?lookup_snoc2, ?lookup_snoc in H; cbn in H;
    injection H as _ <-; reflexivity.
Qed.

(** X10: lines 113-121.  With a valid geometry, when the strategy chosen is
    hardware double buffering, buffer 0 starts the video memory and buffer 1
    starts where buffer 0 ends.  Buffer 1 ends inside the video memory
    exactly when [yres * line_length * 2] is below [2 ^ 32]: the test of
    line 114 leaves room for the second buffer as long as its 32-bit product
    does not wrap around, and only then. *)
Theorem fbdev_init_buffers_inside_vram k fb fbs kp failed ks :
  registered_fb k = fb :: fbs -> valid_geometry fb ->
  fbdev_init_probe k = Ok (Some (0%nat, fix_info fb), kp) ->
  fbdev_init_strategy (fix_info fb) kp = Ok (failed, ks) ->
  double_buffered ks = true ->
  exists fb' off1,
    registered_fb ks !! 0%nat = Some fb' /\
    length (vram fb') = length (vram fb) /\
    data (gr_framebuffer0 ks) = Ptr (Vram 0) 0 /\
    data (gr_framebuffer1 ks) = Ptr (Vram 0) off1 /\
    off1 = height (gr_framebuffer0 ks) * row_bytes (gr_framebuffer0 ks) /\
    0 <= off1 /\
    (off1 + height (gr_framebuffer1 ks) * row_bytes (gr_framebuffer1 ks)
       <= Z.of_nat (length (vram fb'))
     <-> yres (var fb) * line_length (fix_info fb) * 2 < 2 ^ 32).
Proof.
  intros Hreg Hg Hp Hs Hdb.
  pose proof (valid_frame_bytes fb Hg) as Hfb.
  pose proof (valid_vram_ok fb Hg) as Hv.
  rewrite (probe_ok k fb fbs Hreg Hv (valid_frame_fits fb Hg)) in Hp.
  injection Hp as <-.
  destruct (Z_le_gt_dec (umul (frame_bytes fb) 2) (smem_len (fix_info fb)))
    as [Hc | Hc].
  2: { assert (~ hw_cond fb) as Hn by (unfold hw_cond; lia).
       rewrite (strategy_sw_flag k fb fbs failed ks Hn Hs) in Hdb.
       discriminate. }
  rewrite (strategy_hw k fb fbs Hc) in Hs. injection Hs as _ <-.
  exists (cleared (queried fb)), (yres (var fb) * line_length (fix_info fb)).
  unfold vram_ok in Hv. destruct Hg as (Hy & Hl & _ & Hfit & _).
  cbn. unfold all_zero. rewrite length_replicate, Hfb.
  repeat (split; [reflexivity || lia |]).
  intros Hlt. rewrite Hfb, umul_small in Hc; [lia | unfold in_u32; lia].
Qed.

Lemma fbdev_init_buffers_inside_vram_witness :
  exists fb',
    registered_fb (state_after (fbdev_init_strategy (mkFix 32 8))
                     (state_after fbdev_init_probe hw_boot)) !! 0%nat
      = Some fb' /\
    length (vram fb') = 32%nat /\
    data (gr_framebuffer1 (state_after (fbdev_init_strategy (mkFix 32 8))
                             (state_after fbdev_init_probe hw_boot)))
      = Ptr (Vram 0) 16.
Proof.
  destruct (fbdev_init_buffers_inside_vram hw_boot (panel 32 []) []
              (state_after fbdev_init_probe hw_boot) false
              (state_after (fbdev_init_strategy (mkFix 32 8))
                 (state_after fbdev_init_probe hw_boot)))
    as (fb' & off1 & Hdev & Hlen & _ & H1 & Hoff & _).
  - reflexivity.
  - apply panel_valid. lia.
  - vm_compute. reflexivity.
  - vm_compute. reflexivity.
  - reflexivity.
  - exists fb'. split; [exact Hdev |]. split; [exact Hlen |].
    vm_compute in Hoff. subst off1. exact H1.
Defined.

(** ** What [fbdev_init] asks of the device and of the allocator *)

Lemma fb_request_accepted_put v fb :
  0 <= next_reply fb ->
  var (fb_request (FBIOPUT_VSCREENINFO v) fb).2 = v /\
  power (fb_request (FBIOPUT_VSCREENINFO v) fb).2 = power fb.
Proof.
  intros H. unfold fb_request. cbn.
  replace (next_reply fb <? 0) with false by (symmetry; apply Z.ltb_ge; lia).
  split; reflexivity.
Qed.

Lemma accepting_set_vram v fb : accepting fb -> accepting (set_vram v fb).
Proof. intros H. exact H. Qed.

Lemma buffers_hw_requests k fb fbs :
  vram_ok fb -> hw_cond fb ->
  2 * frame_bytes fb <= smem_len (fix_info fb) ->
  exists k' fb',
    fbdev_init_buffers 0 (fix_info fb) (probed fb fbs k) = Ok (Static 1, k') /\
    registered_fb k' = fb' :: fbs /\
    double_buffered k' = true /\
    issued fb' = issued fb ++ init_requests k' /\
    vi k' = committed fb /\
    kmalloc_plan k' = kmalloc_plan k /\
    (accepting fb ->
     power fb' = FB_BLANK_UNBLANK /\ var fb' = vi k' /\
     klog k' = klog k ++ [fb0_report fb; framebuffer_line fb]).
Proof.
  intros Hv Hc Hfit. pose proof (frame_bytes_range fb) as Hr.
  unfold vram_ok in Hv. unfold hw_cond in Hc. unfold frame_bytes in *.
  unfold fbdev_init_buffers, fbdev_init_strategy, fbdev_init_finish. cbn.
  apply Z.leb_le in Hc. rewrite Hc. cbn.
  unfold all_zero. rewrite !length_replicate.
  rewrite in_range_true; [| lia ..]. cbn.
  erewrite set_displayed_framebuffer_run; [| reflexivity | lia | reflexivity ..].
  cbn.
  erewrite fbdev_blank_run; [| reflexivity ..]. cbn.
  erewrite fbdev_blank_run; [| reflexivity ..]. cbn.
  do 2 eexists. split; [reflexivity |]. split; [reflexivity |].
  split; [reflexivity |].
  unfold init_requests. cbn [double_buffered vi].
  split.
  { rewrite !fb_request_issued. cbn. rewrite <- !(assoc_L (++)). reflexivity. }
  split; [reflexivity |]. split; [reflexivity |].
  intros Hacc.
  match goal with
  | |- context [fb_request (FBIOPUT_VSCREENINFO ?v) ?fbz] =>
      set (put := FBIOPUT_VSCREENINFO v); set (fb0 := fbz)
  end.
  change (blank_request false) with (FBIOBLANK FB_BLANK_UNBLANK).
  change (blank_request true) with (FBIOBLANK FB_BLANK_POWERDOWN).
  assert (accepting fb0) as A0 by exact Hacc.
  pose proof (accepting_request put fb0 A0) as A1.
  pose proof (accepting_request (FBIOBLANK FB_BLANK_POWERDOWN) _ A1) as A2.
  destruct (fb_request_accepted_blank FB_BLANK_UNBLANK _ (accepting_next _ A2))
    as (Hp & Hvar2).
  split; [exact Hp |].
  split.
  { rewrite !fb_request_blank_var.
    exact (proj1 (fb_request_accepted_put _ fb0 (accepting_next fb0 A0))). }
  cbn.
  rewrite (errors_if_negative_accepted _ _ (accepting_next fb0 A0)).
  rewrite (errors_if_negative_accepted _ _ (accepting_next _ A1)).
  rewrite (errors_if_negative_accepted _ _ (accepting_next _ A2)).
  rewrite !app_nil_r, <- !(assoc_L (++)). reflexivity.
Qed.

Lemma buffers_sw_requests k fb fbs j1 j2 rest :
  ~ hw_cond fb ->
  kmalloc_plan k = Granted j1 :: Granted j2 :: rest ->
  exists k' fb',
    fbdev_init_buffers 0 (fix_info fb) (probed fb fbs k)
      = Ok (Heap (length (kheap k)), k') /\
    registered_fb k' = fb' :: fbs /\
    double_buffered k' = false /\
    issued fb' = issued fb ++ init_requests k' /\
    vi k' = var fb /\
    kmalloc_plan k' = rest /\
    (accepting fb ->
     power fb' = FB_BLANK_UNBLANK /\ var fb' = vi k' /\
     klog k' = klog k ++ [fb0_report fb; framebuffer_line fb]).
Proof.
  intros Hc Hplan. pose proof (frame_bytes_range fb) as Hr.
  unfold hw_cond in Hc. unfold frame_bytes in *.
  unfold fbdev_init_buffers, fbdev_init_strategy, fbdev_init_finish. cbn.
  apply Z.nle_gt, Z.leb_gt in Hc. rewrite Hc. cbn.
  unfold kmalloc_surface, kmalloc, kmalloc_cell. cbn. rewrite Hplan. cbn.
  rewrite lookup_snoc. cbn. rewrite insert_snoc, lookup_snoc. cbn.
  rewrite length_snoc, lookup_snoc2. cbn. rewrite insert_snoc2, lookup_snoc2. cbn.
  rewrite lookup_snoc2_last. cbn.
  rewrite length_replicate, length_fmap, length_seq.
  rewrite in_range_true; [| lia ..]. cbn.
  rewrite set_displayed_framebuffer_single; [| reflexivity]. cbn.
  erewrite fbdev_blank_run; [| reflexivity ..]. cbn.
  erewrite fbdev_blank_run; [| reflexivity ..]. cbn.
  do 2 eexists. split; [reflexivity |]. split; [reflexivity |].
  split; [reflexivity |].
  unfold init_requests. cbn [double_buffered vi].
  split.
  { rewrite !fb_request_issued. cbn. rewrite <- !(assoc_L (++)). reflexivity. }
  split; [reflexivity |]. split; [reflexivity |].
  intros Hacc.
  change (blank_request false) with (FBIOBLANK FB_BLANK_UNBLANK).
  change (blank_request true) with (FBIOBLANK FB_BLANK_POWERDOWN).
  assert (accepting (cleared (queried fb))) as A1 by exact Hacc.
  pose proof (accepting_request (FBIOBLANK FB_BLANK_POWERDOWN) _ A1) as A2.
  destruct (fb_request_accepted_blank FB_BLANK_UNBLANK _ (accepting_next _ A2))
    as (Hp & Hvar2).
  split; [exact Hp |].
  split; [rewrite !fb_request_blank_var; reflexivity |].
  cbn.
  rewrite (errors_if_negative_accepted _ _ (accepting_next _ A1)).
  rewrite (errors_if_negative_accepted _ _ (accepting_next _ A2)).
  rewrite !app_nil_r, <- !(assoc_L (++)). reflexivity.
Qed.

(** Every [fbdev_init] that returns a surface, seen from the device and the
    allocator. *)
Lemma fbdev_init_more k fb fbs r k' :
  registered_fb k = fb :: fbs -> valid_geometry fb ->
  fbdev_init k = Ok (r, k') -> r <> SNULL ->
  exists fb',
    registered_fb k' = fb' :: fbs /\
    issued fb' = issued fb ++ init_requests k' /\
    vi k' = (if double_buffered k' then committed fb else var fb) /\
    kmalloc_plan k'
      = (if double_buffered k' then kmalloc_plan k else drop 2 (kmalloc_plan k)) /\
    (accepting fb ->
     power fb' = FB_BLANK_UNBLANK /\ var fb' = vi k' /\
     klog k' = klog k ++ [fb0_report fb; framebuffer_line fb]).
Proof.
  intros Hreg Hg H Hr.
  pose proof (valid_vram_ok fb Hg) as Hv.
  pose proof (valid_frame_fits fb Hg) as Hfit.
  rewrite (fbdev_init_after_probe k fb fbs Hreg Hv Hfit) in H.
  destruct (Z_le_gt_dec (umul (frame_bytes fb) 2) (smem_len (fix_info fb)))
    as [Hc | Hc].
  - destruct (Z_le_gt_dec (2 * frame_bytes fb) (smem_len (fix_info fb)))
      as [Hfit2 | Hfit2].
    + destruct (buffers_hw_requests k fb fbs Hv Hc Hfit2)
        as (k1 & fb' & Hrun & Hdev & Hdb & Hiss & Hvi & Hplan & Hacc).
      rewrite Hrun in H. injection H as <- <-.
      exists fb'. rewrite Hdb. auto.
    + rewrite (buffers_hw_oob k fb fbs Hv Hc) in H by lia. discriminate.
  - assert (~ hw_cond fb) as Hn by (unfold hw_cond; lia).
    destruct (kmalloc_plan k) as [| [| j1] plan1] eqn:Hplan.
    + rewrite buffers_sw_no_descriptor in H; [discriminate | exact Hn |].
      rewrite Hplan. exact I.
    + rewrite buffers_sw_no_descriptor in H; [discriminate | exact Hn |].
      rewrite Hplan. exact I.
    + destruct plan1 as [| [| j2] rest].
      * destruct (buffers_sw_no_data k fb fbs j1 [] Hn Hplan I)
          as (k1 & Hrun & _).
        rewrite Hrun in H. injection H as <- <-. contradiction.
      * destruct (buffers_sw_no_data k fb fbs j1 (ENOMEM :: rest) Hn Hplan I)
          as (k1 & Hrun & _).
        rewrite Hrun in H. injection H as <- <-. contradiction.
      * destruct (buffers_sw_requests k fb fbs j1 j2 rest Hn Hplan)
          as (k1 & fb' & Hrun & Hdev & Hdb & Hiss & Hvi & Hpl & Hacc).
        rewrite Hrun in H. injection H as <- <-.
        exists fb'. rewrite Hdb. auto.
Qed.

(** X11: an [fbdev_init] that returns a surface has sent the device, in
    this order, the two queries FBIOGET_FSCREENINFO and FBIOGET_VSCREENINFO,
    FBIOPUT_VSCREENINFO with [vi] (under the hardware strategy only),
    FBIOBLANK FB_BLANK_POWERDOWN and FBIOBLANK FB_BLANK_UNBLANK, and nothing
    else.  When the driver accepts its requests the display is left
    unblanked with the screen information of [vi], and the log has gained
    the two information lines, with the numbers as [%d] prints them, and no
    error.  An [fbdev_init] that returns NULL for want of memory has sent
    the device the two queries only. *)
Theorem fbdev_init_requests k fb fbs r k' :
  registered_fb k = fb :: fbs -> valid_geometry fb ->
  fbdev_init k = Ok (r, k') ->
  exists fb',
    registered_fb k' = fb' :: fbs /\
    (r <> SNULL ->
     issued fb' =
       issued fb
       ++ [FBIOGET_FSCREENINFO; FBIOGET_VSCREENINFO]
       ++ (if double_buffered k' then [FBIOPUT_VSCREENINFO (vi k')] else [])
       ++ [FBIOBLANK FB_BLANK_POWERDOWN; FBIOBLANK FB_BLANK_UNBLANK] /\
     (accepting fb ->
      power fb' = FB_BLANK_UNBLANK /\ var fb' = vi k' /\
      klog k' = klog k
                ++ [fb0_report fb;
                    KERN_INFO_framebuffer (as_int (xres (var fb)))
                                          (as_int (yres (var fb)))])) /\
    (r = SNULL ->
     issued fb' = issued fb ++ [FBIOGET_FSCREENINFO; FBIOGET_VSCREENINFO] /\
     power fb' = power fb /\ var fb' = var fb).
Proof.
  intros Hreg Hg H.
  destruct r as [| i | d].
  - destruct (fbdev_init_cases k fb fbs SNULL k' Hreg (valid_vram_ok fb Hg) H)
      as (_ & [(_ & _ & Hr & _) | [(_ & Hr & _) | (_ & _ & A)]]);
      try discriminate.
    exists (cleared (queried fb)). split; [exact (nm_dev _ _ _ _ A) |].
    split; [intros Hr; contradiction | intros _].
    split; [| split; reflexivity].
    cbn. rewrite <- (assoc_L (++)). reflexivity.
  - destruct (fbdev_init_more k fb fbs (Static i) k' Hreg Hg H)
      as (fb' & Hdev & Hiss & _ & _ & Hacc); [discriminate |].
    exists fb'. split; [exact Hdev |].
    split; [intros _; split; [exact Hiss | exact Hacc] | discriminate].
  - destruct (fbdev_init_more k fb fbs (Heap d) k' Hreg Hg H)
      as (fb' & Hdev & Hiss & _ & _ & Hacc); [discriminate |].
    exists fb'. split; [exact Hdev |].
    split; [intros _; split; [exact Hiss | exact Hacc] | discriminate].
Qed.

Lemma fbdev_init_requests_witness :
  exists fb',
    registered_fb sw_inited = [fb'] /\
    issued fb' = [FBIOGET_FSCREENINFO; FBIOGET_VSCREENINFO;
                  FBIOBLANK FB_BLANK_POWERDOWN; FBIOBLANK FB_BLANK_UNBLANK] /\
    power fb' = FB_BLANK_UNBLANK.
Proof.
  destruct (fbdev_init_requests sw_boot (panel 20 []) [] (Heap 0) sw_inited)
    as (fb' & Hdev & Hsome & _).
  - reflexivity.
  - apply panel_valid. lia.
  - vm_compute. reflexivity.
  - destruct Hsome as (Hiss & Hacc); [discriminate |].
    exists fb'. split; [exact Hdev |]. split; [exact Hiss |].
    apply Hacc. constructor.
Defined.

(** X12: under the hardware strategy [fbdev_init] leaves in [vi] the
    resolution the device reported, a virtual vertical resolution of
    [2 * yres], a vertical offset of 0, and the reported bits per pixel
    rounded down to whole bytes ([bpp - bpp mod 8]: line 109 divides by 8,
    line 62 multiplies by 8); the pixel size of the surfaces is [bpp / 8].
    Under the software strategy [vi] is what the device reported. *)
Theorem fbdev_init_screen_info k fb fbs r k' :
  registered_fb k = fb :: fbs -> valid_geometry fb ->
  fbdev_init k = Ok (r, k') -> r <> SNULL ->
  pixel_bytes (gr_framebuffer0 k') = bits_per_pixel (var fb) / 8 /\
  xres (vi k') = xres (var fb) /\ yres (vi k') = yres (var fb) /\
  (double_buffered k' = true ->
   yres_virtual (vi k') = 2 * yres (var fb) /\
   yoffset (vi k') = 0 /\
   bits_per_pixel (vi k')
     = bits_per_pixel (var fb) - bits_per_pixel (var fb) mod 8) /\
  (double_buffered k' = false -> vi k' = var fb).
Proof.
  intros Hreg Hg H Hr.
  pose proof (valid_frame_bytes fb Hg) as Hfb.
  destruct (fbdev_init_more k fb fbs r k' Hreg Hg H Hr)
    as (_ & _ & _ & Hvi & _).
  destruct (fbdev_init_cases k fb fbs r k' Hreg (valid_vram_ok fb Hg) H)
    as (_ & [(_ & Hfit2 & _ & A) | [(_ & _ & A) | (_ & -> & _)]]).
  - rewrite (hw_flag _ _ _ _ A) in Hvi. rewrite Hvi, (hw_fb0 _ _ _ _ A).
    rewrite (hw_flag _ _ _ _ A).
    destruct Hg as (Hy & Hl & Hbpp & Hfit & _). unfold committed. cbn.
    split; [reflexivity |]. split; [reflexivity |]. split; [reflexivity |].
    split; [| discriminate]. intros _.
    split; [rewrite umul_small; [lia | unfold in_u32; nia] |].
    split; [reflexivity |].
    unfold in_u32 in Hbpp.
    pose proof (Z.div_mod (bits_per_pixel (var fb)) 8).
    pose proof (Z.mod_pos_bound (bits_per_pixel (var fb)) 8).
    rewrite umul_small; [lia | unfold in_u32; lia].
  - rewrite (sw_flag _ _ _ _ A) in Hvi. rewrite Hvi, (sw_fb0 _ _ _ _ A).
    rewrite (sw_flag _ _ _ _ A). cbn.
    split; [reflexivity |]. split; [reflexivity |]. split; [reflexivity |].
    split; [discriminate | reflexivity].
  - contradiction.
Qed.

Lemma fbdev_init_screen_info_witness :
  bits_per_pixel (vi hicolor_inited) = 8 /\
  yres_virtual (vi hicolor_inited) = 4 /\
  pixel_bytes (gr_framebuffer0 hicolor_inited) = 1.
Proof.
  destruct (fbdev_init_screen_info (boot [hicolor_panel] []) hicolor_panel []
              (Static 1) hicolor_inited)
    as (Hpb & _ & _ & Hhw & _).
  - reflexivity.
  - unfold valid_geometry, vram_ok, in_u32. cbn. lia.
  - vm_compute. reflexivity.
  - discriminate.
  - destruct (Hhw eq_refl) as (Hv & _ & Hb).
    split; [exact Hb |]. split; [exact Hv | exact Hpb].
Defined.

(** X13: an [fbdev_init] that returns a surface under the hardware strategy
    has allocated nothing: the heap and the allocator are as before.  Under
    the software strategy it has made exactly two allocations, the
    descriptor and the buffer, appended to the heap; no block that existed
    before is freed or changed. *)
Theorem fbdev_init_allocations k fb fbs r k' :
  registered_fb k = fb :: fbs -> valid_geometry fb ->
  fbdev_init k = Ok (r, k') -> r <> SNULL ->
  (double_buffered k' = true ->
   kheap k' = kheap k /\ kmalloc_plan k' = kmalloc_plan k) /\
  (double_buffered k' = false ->
   exists desc buf,
     kheap k' = kheap k ++ [Some (Descriptor (Some desc)); Some (Buffer buf)] /\
     kmalloc_plan k' = drop 2 (kmalloc_plan k)).
Proof.
  intros Hreg Hg H Hr.
  destruct (fbdev_init_more k fb fbs r k' Hreg Hg H Hr)
    as (_ & _ & _ & _ & Hplan & _).
  destruct (fbdev_init_cases k fb fbs r k' Hreg (valid_vram_ok fb Hg) H)
    as (_ & [(_ & _ & _ & A) | [(_ & _ & A) | (_ & -> & _)]]).
  - rewrite (hw_flag _ _ _ _ A) in *. split; [| discriminate].
    intros _. split; [exact (hw_heap _ _ _ _ A) | exact Hplan].
  - rewrite (sw_flag _ _ _ _ A) in *. split; [discriminate |].
    intros _. do 2 eexists. split; [| exact Hplan].
    rewrite (sw_heap _ _ _ _ A), <- (assoc_L (++)). reflexivity.
  - contradiction.
Qed.

Lemma fbdev_init_allocations_witness :
  length (kheap sw_inited) = 2%nat /\ kmalloc_plan sw_inited = [] /\
  kheap hw_inited = [].
Proof.
  destruct (fbdev_init_allocations sw_boot (panel 20 []) [] (Heap 0) sw_inited)
    as (_ & Hsw).
  - reflexivity.
  - apply panel_valid. lia.
  - vm_compute. reflexivity.
  - discriminate.
  - destruct (Hsw eq_refl) as (desc & buf & Hheap & Hplan).
    split; [rewrite Hheap; reflexivity |]. split; [exact Hplan |].
    reflexivity.
Defined.

(** ** The swapped-channel copy on partial pixels *)







(** ** What the copies can write *)




